(** * clauder: persistent store, tool handlers and protocol engine

    A shallow embedding of [internal/store/sqlite.go] (the SQLite-backed
    store) and [internal/mcp] (tool handlers and the JSON-RPC loop) of
    MaorBril/clauder, with the properties the specification states about
    them.

    Conventions of the embedding.
    - Go strings are byte strings: [string] (a list of 8-bit [ascii]).
    - [int], [int64] and [time.Duration] values are [Z]; where the source
      does arithmetic that can wrap, the wrap-around is written out.
    - A [time.Time] is a [Z] (an instant on a linear time line); SQL
      comparisons and orderings of DATETIME columns are those of the
      instants.  [time.Now()] is an input of each operation; a tool
      handler hands the instant it is given to every store call it makes.
    - The database behind [*sql.DB] is a record of three tables.  Each SQL
      statement of the source is one function over that record.
    - A Go [(T, error)] is a [result T]. *)

From Stdlib Require Import ZArith NArith Ascii String DecimalString List Bool Lia.
From stdpp Require Import base option strings list sorting gmap.

Local Open Scope string_scope.
Local Open Scope Z_scope.

(** * Part I: the model *)

(** ** Byte strings *)

Module Bytes.

(** The double quote character, byte 34. *)
Definition dquote : ascii := "034"%char.

Definition backslash : ascii := "092"%char.

Definition is_dquote (c : ascii) : bool := Ascii.eqb c dquote.

(** One-character string. *)
Definition str1 (c : ascii) : string := String c EmptyString.

(** [strings.ReplaceAll(s, old, new)] for a one-byte [old], which is the
    only way the source calls it: every occurrence of [old] becomes
    [new], every other byte is kept. *)
Fixpoint ReplaceAll (s : string) (old : ascii) (new : string) : string :=
  match s with
  | EmptyString => EmptyString
  | String c s' =>
      if Ascii.eqb c old then new +:+ ReplaceAll s' old new
      else String c (ReplaceAll s' old new)
  end.

(** [strings.Join(elems, sep)]. *)
Fixpoint Join (elems : list string) (sep : string) : string :=
  match elems with
  | [] => EmptyString
  | [e] => e
  | e :: rest => e +:+ sep +:+ Join rest sep
  end.

(** [strings.Repeat] of a one-byte string. *)
Fixpoint Repeat (c : ascii) (n : nat) : string :=
  match n with
  | O => EmptyString
  | S k => String c (Repeat c k)
  end.

(** [s[:n]]: the first [n] bytes. *)
Fixpoint slice_to (n : nat) (s : string) : string :=
  match n, s with
  | S k, String c s' => String c (slice_to k s')
  | _, _ => EmptyString
  end.

(** [len(s)]. *)
Definition len (s : string) : Z := Z.of_nat (String.length s).

(** Every byte of [s] satisfies [p]. *)
Fixpoint all_bytes (p : ascii -> bool) (s : string) : bool :=
  match s with
  | EmptyString => true
  | String c s' => p c && all_bytes p s'
  end.

(** [s] is the empty string. *)
Definition is_empty (s : string) : bool :=
  match s with EmptyString => true | _ => false end.

(** [%d] of [fmt.Sprintf]: the decimal numeral of an integer. *)
Definition itoa (z : Z) : string := NilZero.string_of_int (Z.to_int z).

End Bytes.

Import Bytes.

(** ** Errors *)

Definition error := string.

Inductive result (A : Type) : Type :=
| Ok (a : A)
| Err (e : error).

Arguments Ok {A} a.
Arguments Err {A} e.

#[global] Instance result_ret : MRet result := fun A a => Ok a.

#[global] Instance result_bind : MBind result := fun A B k r =>
  match r with
  | Ok a => k a
  | Err e => Err e
  end.

Definition is_ok {A : Type} (r : result A) : bool :=
  match r with Ok _ => true | Err _ => false end.

(** ** Full-text query sanitisation ([sqlite.go], [sanitizeFTSQuery]) *)

Definition sanitizeFTSQuery (query : string) : string :=
  let query := ReplaceAll query dquote (str1 dquote +:+ str1 dquote) in
  str1 dquote +:+ query +:+ str1 dquote.

(** *** String literals of the FTS5 query language

    The operand of [MATCH] is read by SQLite's FTS5 query parser, which is
    not part of the repository.  Its lexical rule for a string is the SQL
    one: a double quote opens it, a doubled double quote inside stands for
    one double quote, a single double quote closes it.  [fts5_string_body]
    reads the body after the opening quote and returns the text spelled by
    the literal together with what follows the closing quote. *)

Fixpoint fts5_string_body (s : string) : option (string * string) :=
  match s with
  | EmptyString => None
  | String c s' =>
      if is_dquote c then
        match s' with
        | String c2 s'' =>
            if is_dquote c2 then
              match fts5_string_body s'' with
              | Some (txt, rest) => Some (String dquote txt, rest)
              | None => None
              end
            else Some (EmptyString, s')
        | EmptyString => Some (EmptyString, EmptyString)
        end
      else
        match fts5_string_body s' with
        | Some (txt, rest) => Some (String c txt, rest)
        | None => None
        end
  end.

(** [fts5_phrase expr] is [Some p] exactly when the whole of [expr] is one
    string literal, spelling [p]: a query made of a single phrase, with no
    operator, column filter, prefix star or bare word outside the quotes. *)
Definition fts5_phrase (expr : string) : option string :=
  match expr with
  | String c body =>
      if is_dquote c then
        match fts5_string_body body with
        | Some (txt, EmptyString) => Some txt
        | _ => None
        end
      else None
  | EmptyString => None
  end.

(** The tokenizer and index of the FTS5 table are SQLite's.  The model
    takes from them one function: whether a row's content contains a given
    phrase.  What text is handed to it as the phrase is decided by the code
    under study. *)
Class SearchEngine := {
  fts5_phrase_match : string -> string -> bool
}.

(** ** The [LIKE] operator of SQLite

    [%] matches any run of bytes, [_] matches one byte, any other byte
    matches itself, ASCII letters without regard to case (SQLite's default;
    the source sets no [ESCAPE] character and no [case_sensitive_like]).
    SQLite compares UTF-8 characters where this model compares bytes, and
    it ends a pattern or a text at a NUL byte; the two agree on ASCII text
    without NUL. *)

Module Like.

Definition percent : ascii := "%"%char.
Definition underscore : ascii := "_"%char.

Definition to_lower (c : ascii) : ascii :=
  let n := N_of_ascii c in
  if ((65 <=? n) && (n <=? 90))%N then ascii_of_N (n + 32) else c.

Definition same_char (c d : ascii) : bool :=
  Ascii.eqb (to_lower c) (to_lower d).

Fixpoint like (pattern : string) : string -> bool :=
  match pattern with
  | EmptyString => fun s => is_empty s
  | String p pattern' =>
      if Ascii.eqb p percent then
        fix skip (s : string) : bool :=
          like pattern' s ||
          match s with
          | EmptyString => false
          | String _ s' => skip s'
          end
      else
        fun s =>
          match s with
          | EmptyString => false
          | String c s' =>
              (Ascii.eqb p underscore || same_char p c) && like pattern' s'
          end
  end.

End Like.

(** ** [encoding/json] on tag lists

    [Marshal] is [json.Marshal] of a non-nil [[]string]; [Unmarshal] is
    [json.Unmarshal] into a [*[]string].  Both belong to Go's standard
    library; they are modelled on byte strings.  Bytes from 128 up are
    copied as they are, which is what Go does for well-formed UTF-8 other
    than U+2028 and U+2029.  Backspace and form feed are written [\b] and
    [\f], as Go does since version 1.22. *)

Module TagsJSON.

Definition hex_digit (n : N) : ascii :=
  match String.get (N.to_nat n) "0123456789abcdef" with
  | Some c => c
  | None => "0"%char
  end.

(** [\u00XX]. *)
Definition unicode_escape (n : N) : string :=
  String backslash
    (String "u" (String "0" (String "0"
      (String (hex_digit (n / 16)) (str1 (hex_digit (n mod 16))))))).

(** One byte of a string value, as [encodeState.string] writes it with
    HTML escaping on (the default of [json.Marshal]). *)
Definition escape_byte (c : ascii) : string :=
  let n := N_of_ascii c in
  if Ascii.eqb c dquote then String backslash (str1 dquote)
  else if Ascii.eqb c backslash then String backslash (str1 backslash)
  else if (n =? 8)%N then String backslash "b"
  else if (n =? 12)%N then String backslash "f"
  else if (n =? 10)%N then String backslash "n"
  else if (n =? 13)%N then String backslash "r"
  else if (n =? 9)%N then String backslash "t"
  else if (n <? 32)%N then unicode_escape n
  else if Ascii.eqb c "<" || Ascii.eqb c ">" || Ascii.eqb c "&"
    then unicode_escape n
  else str1 c.

Fixpoint escape (s : string) : string :=
  match s with
  | EmptyString => EmptyString
  | String c s' => escape_byte c +:+ escape s'
  end.

Definition quote (s : string) : string :=
  str1 dquote +:+ escape s +:+ str1 dquote.

Definition Marshal (tags : list string) : string :=
  "[" +:+ Join (map quote tags) "," +:+ "]".

(** *** Decoding *)

Definition is_ws (c : ascii) : bool :=
  let n := N_of_ascii c in
  ((n =? 32) || (n =? 9) || (n =? 10) || (n =? 13))%N.

Fixpoint skip_ws (s : string) : string :=
  match s with
  | String c s' => if is_ws c then skip_ws s' else s
  | EmptyString => s
  end.

Definition hex_value (c : ascii) : option N :=
  let n := N_of_ascii c in
  if ((48 <=? n) && (n <=? 57))%N then Some (n - 48)%N
  else if ((97 <=? n) && (n <=? 102))%N then Some (n - 87)%N
  else if ((65 <=? n) && (n <=? 70))%N then Some (n - 55)%N
  else None.

(** Four hexadecimal digits ([getu4] without the leading [\u]). *)
Definition hex4 (s : string) : option (N * string) :=
  match s with
  | String a (String b (String c (String d rest))) =>
      match hex_value a, hex_value b, hex_value c, hex_value d with
      | Some x, Some y, Some z, Some w =>
          Some (((x * 16 + y) * 16 + z) * 16 + w, rest)%N
      | _, _, _, _ => None
      end
  | _ => None
  end.

Definition byte (n : N) : ascii := ascii_of_N n.

(** [utf8.EncodeRune]. *)
Definition utf8 (r : N) : string :=
  (if r <? 128 then str1 (byte r)
   else if r <? 2048 then
     String (byte (192 + r / 64)) (str1 (byte (128 + r mod 64)))
   else if r <? 65536 then
     String (byte (224 + r / 4096))
       (String (byte (128 + (r / 64) mod 64)) (str1 (byte (128 + r mod 64))))
   else
     String (byte (240 + r / 262144))
       (String (byte (128 + (r / 4096) mod 64))
         (String (byte (128 + (r / 64) mod 64))
           (str1 (byte (128 + r mod 64))))))%N.

Definition replacement_char : N := 65533.

Definition is_surrogate (r : N) : bool := ((55296 <=? r) && (r <? 57344))%N.

(** [utf16.DecodeRune]. *)
Definition decode_pair (r1 r2 : N) : N :=
  (if (55296 <=? r1) && (r1 <? 56320) && (56320 <=? r2) && (r2 <? 57344)
   then (r1 - 55296) * 1024 + (r2 - 56320) + 65536
   else replacement_char)%N.

Definition simple_escape (c : ascii) : option ascii :=
  if Ascii.eqb c dquote then Some dquote
  else if Ascii.eqb c backslash then Some backslash
  else if Ascii.eqb c "/" then Some "/"%char
  else if Ascii.eqb c "b" then Some (byte 8)
  else if Ascii.eqb c "f" then Some (byte 12)
  else if Ascii.eqb c "n" then Some (byte 10)
  else if Ascii.eqb c "r" then Some (byte 13)
  else if Ascii.eqb c "t" then Some (byte 9)
  else None.

Definition prepend (pre : string) (r : option (string * string))
  : option (string * string) :=
  match r with
  | Some (txt, rest) => Some (pre +:+ txt, rest)
  | None => None
  end.

(** The body of a string literal after its opening quote: the decoded
    text and what follows the closing quote. *)
Fixpoint string_body (fuel : nat) (s : string) : option (string * string) :=
  match fuel with
  | O => None
  | S fuel' =>
      match s with
      | EmptyString => None
      | String c s' =>
          if Ascii.eqb c dquote then Some (EmptyString, s')
          else if Ascii.eqb c backslash then
            match s' with
            | EmptyString => None
            | String e s'' =>
                match simple_escape e with
                | Some b => prepend (str1 b) (string_body fuel' s'')
                | None =>
                    if Ascii.eqb e "u" then
                      match hex4 s'' with
                      | None => None
                      | Some (r1, after1) =>
                          if is_surrogate r1 then
                            match after1 with
                            | String b1 (String b2 after2) =>
                                match
                                  (if Ascii.eqb b1 backslash && Ascii.eqb b2 "u"
                                   then hex4 after2 else None)
                                with
                                | Some (r2, after3) =>
                                    if (decode_pair r1 r2 =? replacement_char)%N
                                    then prepend (utf8 replacement_char)
                                           (string_body fuel' after1)
                                    else prepend (utf8 (decode_pair r1 r2))
                                           (string_body fuel' after3)
                                | None =>
                                    prepend (utf8 replacement_char)
                                      (string_body fuel' after1)
                                end
                            | _ =>
                                prepend (utf8 replacement_char)
                                  (string_body fuel' after1)
                            end
                          else prepend (utf8 r1) (string_body fuel' after1)
                      end
                    else None
                end
            end
          else if (N_of_ascii c <? 32)%N then None
          else prepend (str1 c) (string_body fuel' s')
      end
  end.

(** One array element, a string or [null] (which leaves the element at
    its zero value, the empty string). *)
Definition element (s : string) : option (string * string) :=
  match s with
  | String c s' =>
      if Ascii.eqb c dquote then string_body (S (String.length s')) s'
      else
        match s with
        | String "n" (String "u" (String "l" (String "l" rest))) =>
            Some (EmptyString, rest)
        | _ => None
        end
  | EmptyString => None
  end.

(** The elements after the first one, up to the closing bracket. *)
Fixpoint elements (fuel : nat) (s : string) : option (list string * string) :=
  match fuel with
  | O => None
  | S fuel' =>
      match skip_ws s with
      | String "]" rest => Some ([], rest)
      | String "," rest =>
          match element (skip_ws rest) with
          | Some (e, rest') =>
              match elements fuel' rest' with
              | Some (es, rest'') => Some (e :: es, rest'')
              | None => None
              end
          | None => None
          end
      | _ => None
      end
  end.

(** [json.Unmarshal(data, &tags)] for [tags []string]: [Some] is a nil
    error with the decoded slice, [None] any error (a syntax error, or a
    value or element of another JSON type). *)
Definition Unmarshal (data : string) : option (list string) :=
  match skip_ws data with
  | String "n" (String "u" (String "l" (String "l" rest))) =>
      if is_empty (skip_ws rest) then Some [] else None
  | String "[" rest =>
      match skip_ws rest with
      | String "]" rest' =>
          if is_empty (skip_ws rest') then Some [] else None
      | first =>
          match element first with
          | Some (e, rest') =>
              match elements (S (String.length rest')) rest' with
              | Some (es, rest'') =>
                  if is_empty (skip_ws rest'') then Some (e :: es) else None
              | None => None
              end
          | None => None
          end
      end
  | _ => None
  end.

End TagsJSON.

(** ** Data model ([store.go]) *)

Definition Time := Z.

(** [time.Duration] is an [int64] count of nanoseconds. *)
Definition MinInt64 : Z := - 2 ^ 63.
Definition MaxInt64 : Z := 2 ^ 63 - 1.

(** Two's complement wrap-around of 64-bit signed arithmetic. *)
Definition wrap64 (z : Z) : Z := (z + 2 ^ 63) mod 2 ^ 64 - 2 ^ 63.

Module Fact.
Record t := {
  ID : Z;
  Content : string;
  Tags : list string;
  SourceDir : string;
  CreatedAt : Time;
  UpdatedAt : Time
}.
End Fact.

Module Instance.
Record t := {
  ID : string;
  PID : Z;
  Directory : string;
  StartedAt : Time;
  LastHeartbeat : Time
}.

Definition set_LastHeartbeat (i : t) (now : Time) : t :=
  {| ID := ID i; PID := PID i; Directory := Directory i;
     StartedAt := StartedAt i; LastHeartbeat := now |}.
End Instance.

Module Message.
(** [ReadAt] is a [*time.Time]: [None] is the nil pointer, an unread
    message. *)
Record t := {
  ID : Z;
  FromInstance : string;
  ToInstance : string;
  Content : string;
  CreatedAt : Time;
  ReadAt : option Time
}.

Definition set_ReadAt (m : t) (now : Time) : t :=
  {| ID := ID m; FromInstance := FromInstance m; ToInstance := ToInstance m;
     Content := Content m; CreatedAt := CreatedAt m; ReadAt := Some now |}.
End Message.

(** ** The database ([sqlite.go], [migrate])

    A row of [facts] keeps its tags as the TEXT the column holds.  Rows of
    [instances] and [messages] have the shape of the Go structs they are
    scanned into ([read_at] NULL is [ReadAt = None]).  Tables are lists in
    insertion order.  [facts_seq] and [messages_seq] are the AUTOINCREMENT
    counters SQLite keeps in [sqlite_sequence].  [closed] records that
    [Close] was called: every later statement fails.  Columns hold values
    of their declared type, so [rows.Scan] does not fail. *)

Record FactRow := {
  row_id : Z;
  row_content : string;
  row_tags : string;
  row_source_dir : string;
  row_created_at : Time;
  row_updated_at : Time
}.

Record DB := {
  facts : list FactRow;
  facts_seq : Z;
  instances : list Instance.t;
  messages : list Message.t;
  messages_seq : Z;
  closed : bool
}.

(** The database [migrate] creates in a fresh data directory. *)
Definition empty_db : DB :=
  {| facts := []; facts_seq := 0; instances := [];
     messages := []; messages_seq := 0; closed := false |}.

Definition set_facts (db : DB) (rows : list FactRow) (seq : Z) : DB :=
  {| facts := rows; facts_seq := seq; instances := instances db;
     messages := messages db; messages_seq := messages_seq db;
     closed := closed db |}.

Definition set_instances (db : DB) (rows : list Instance.t) : DB :=
  {| facts := facts db; facts_seq := facts_seq db; instances := rows;
     messages := messages db; messages_seq := messages_seq db;
     closed := closed db |}.

Definition set_messages (db : DB) (rows : list Message.t) (seq : Z) : DB :=
  {| facts := facts db; facts_seq := facts_seq db; instances := instances db;
     messages := rows; messages_seq := seq; closed := closed db |}.

(** What [database/sql] answers on a closed handle. *)
Definition connection (db : DB) : result unit :=
  if closed db then Err "sql: database is closed" else Ok tt.

(** [INTEGER PRIMARY KEY AUTOINCREMENT]: one more than the largest rowid
    the table holds or has ever held; SQLITE_FULL once the largest 64-bit
    rowid has been used. *)
Definition max_rowid (ids : list Z) : Z := fold_right Z.max 0 ids.

Definition autoincrement (seq : Z) (ids : list Z) : result Z :=
  let last := Z.max seq (max_rowid ids) in
  if MaxInt64 <=? last then Err "database or disk is full" else Ok (last + 1).

(** [ORDER BY]: the rows sorted on a timestamp.  SQLite leaves the order of
    rows with equal keys open; the model sorts with stdpp's merge sort. *)
Definition later_first {A : Type} (key : A -> Time) (a b : A) : Prop :=
  key b <= key a.

Definition earlier_first {A : Type} (key : A -> Time) (a b : A) : Prop :=
  key a <= key b.

#[global] Instance later_first_dec {A} (key : A -> Time) (a b : A) :
  Decision (later_first key a b).
Proof. unfold later_first. apply _. Defined.

#[global] Instance earlier_first_dec {A} (key : A -> Time) (a b : A) :
  Decision (earlier_first key a b).
Proof. unfold earlier_first. apply _. Defined.

Definition order_by_desc {A : Type} (key : A -> Time) (rows : list A) : list A :=
  merge_sort (later_first key) rows.

Definition order_by_asc {A : Type} (key : A -> Time) (rows : list A) : list A :=
  merge_sort (earlier_first key) rows.

(** ** The store ([sqlite.go]) *)

(** Limits for query bounds. *)
Definition MaxLimit : Z := 1000.
Definition DefaultLimit : Z := 100.

Section Facts.

Context `{SearchEngine}.

(** A nil [tags] and an empty one are the same list: both are written as
    [[]]. *)
Definition AddFact (db : DB) (now : Time)
    (content : string) (tags : list string) (sourceDir : string)
  : result (Fact.t * DB) :=
  let tagsJSON := TagsJSON.Marshal tags in
  _ ← connection db;
  id ← autoincrement (facts_seq db) (map row_id (facts db));
  let row := {| row_id := id; row_content := content; row_tags := tagsJSON;
                row_source_dir := sourceDir;
                row_created_at := now; row_updated_at := now |} in
  Ok ({| Fact.ID := id; Fact.Content := content; Fact.Tags := tags;
         Fact.SourceDir := sourceDir;
         Fact.CreatedAt := now; Fact.UpdatedAt := now |},
      set_facts db (facts db ++ [row]) id).

(** The statement [GetFacts] assembles.  [match_operand] is the argument
    bound to [fts.content MATCH ?] when the statement joins [facts_fts];
    [conditions] are the conjuncts added after it, each with its bound
    argument; [limit_clause] is the number printed after [LIMIT].  The
    statement always ends in [ORDER BY f.updated_at DESC LIMIT n]. *)
Inductive Condition :=
| SourceDirIs (dir : string)
| TagsLike (pattern : string).

Record FactQuery := {
  match_operand : option string;
  conditions : list Condition;
  limit_clause : Z
}.

(** The pattern bound for one tag of the filter. *)
Definition tag_pattern (tag : string) : string :=
  let safeTag := ReplaceAll tag dquote (str1 dquote +:+ str1 dquote) in
  "%" +:+ str1 dquote +:+ safeTag +:+ str1 dquote +:+ "%".

(** Apply limit bounds. *)
Definition clamp_limit (limit : Z) : Z :=
  if limit <=? 0 then DefaultLimit
  else if MaxLimit <? limit then MaxLimit
  else limit.

Definition factQuery (query : string) (tags : list string)
    (sourceDir : string) (limit : Z) : FactQuery :=
  {| match_operand :=
       if is_empty query then None else Some (sanitizeFTSQuery query);
     conditions :=
       (if is_empty sourceDir then [] else [SourceDirIs sourceDir])
       ++ map (fun tag => TagsLike (tag_pattern tag)) tags;
     limit_clause := clamp_limit limit |}.

(** *** Running the statement *)

Definition holds (c : Condition) (r : FactRow) : bool :=
  match c with
  | SourceDirIs dir => String.eqb (row_source_dir r) dir
  | TagsLike pattern => Like.like pattern (row_tags r)
  end.

(** [fts.content MATCH ?].  The model covers operands that are a single
    string literal, which FTS5 reads as one phrase; it reports any other
    operand as a syntax error of the query. *)
Definition match_filter (operand : option string)
  : result (FactRow -> bool) :=
  match operand with
  | None => Ok (fun _ => true)
  | Some expr =>
      match fts5_phrase expr with
      | Some phrase => Ok (fun r => fts5_phrase_match phrase (row_content r))
      | None => Err "fts5: syntax error"
      end
  end.

Definition selects (hit : FactRow -> bool) (q : FactQuery) (r : FactRow)
  : bool :=
  hit r && forallb (fun c => holds c r) (conditions q).

Definition runFactQuery (db : DB) (q : FactQuery) : result (list FactRow) :=
  _ ← connection db;
  hit ← match_filter (match_operand q);
  Ok (take (Z.to_nat (limit_clause q))
        (order_by_desc row_updated_at
           (List.filter (selects hit q) (facts db)))).

(** [rows.Scan] followed by the decoding of the tags column. *)
Definition scanFact (r : FactRow) : Fact.t :=
  {| Fact.ID := row_id r;
     Fact.Content := row_content r;
     Fact.Tags :=
       match TagsJSON.Unmarshal (row_tags r) with
       | Some tags => tags
       | None => []   (* If tags are corrupted, initialize to empty slice *)
       end;
     Fact.SourceDir := row_source_dir r;
     Fact.CreatedAt := row_created_at r;
     Fact.UpdatedAt := row_updated_at r |}.

Definition GetFacts (db : DB) (query : string) (tags : list string)
    (sourceDir : string) (limit : Z) : result (list Fact.t) :=
  rows ← runFactQuery db (factQuery query tags sourceDir limit);
  Ok (map scanFact rows).

(** [None] is [sql.ErrNoRows], which the source turns into a nil fact. *)
Definition GetFactByID (db : DB) (id : Z) : result (option Fact.t) :=
  _ ← connection db;
  Ok (scanFact <$> List.find (fun r => row_id r =? id) (facts db)).

Definition DeleteFact (db : DB) (id : Z) : result DB :=
  _ ← connection db;
  Ok (set_facts db
        (List.filter (fun r => negb (row_id r =? id)) (facts db))
        (facts_seq db)).

End Facts.

(** *** Instances *)

Definition RegisterInstance (db : DB) (now : Time)
    (id : string) (pid : Z) (directory : string) : result DB :=
  _ ← connection db;
  let row := {| Instance.ID := id; Instance.PID := pid;
                Instance.Directory := directory;
                Instance.StartedAt := now; Instance.LastHeartbeat := now |} in
  Ok (set_instances db
        (List.filter (fun i => negb (String.eqb (Instance.ID i) id))
           (instances db) ++ [row])).

Definition Heartbeat (db : DB) (now : Time) (id : string) : result DB :=
  _ ← connection db;
  Ok (set_instances db
        (map (fun i => if String.eqb (Instance.ID i) id
                       then Instance.set_LastHeartbeat i now else i)
           (instances db))).

Definition UnregisterInstance (db : DB) (id : string) : result DB :=
  _ ← connection db;
  Ok (set_instances db
        (List.filter (fun i => negb (String.eqb (Instance.ID i) id))
           (instances db))).

Definition GetInstances (db : DB) : result (list Instance.t) :=
  _ ← connection db;
  Ok (order_by_desc Instance.StartedAt (instances db)).

Definition GetInstance (db : DB) (id : string) : result (option Instance.t) :=
  _ ← connection db;
  Ok (List.find (fun i => String.eqb (Instance.ID i) id) (instances db)).

(** [time.Now().Add(-maxAge)]: the negation is 64-bit. *)
Definition cutoff (now : Time) (maxAge : Z) : Time :=
  now + wrap64 (- maxAge).

Definition stale (now : Time) (maxAge : Z) (i : Instance.t) : bool :=
  Instance.LastHeartbeat i <? cutoff now maxAge.

Definition CleanupStaleInstances (db : DB) (now : Time) (maxAge : Z)
  : result DB :=
  _ ← connection db;
  Ok (set_instances db
        (List.filter (fun i => negb (stale now maxAge i)) (instances db))).

(** *** Messages *)

Definition SendMessage (db : DB) (now : Time) (from to content : string)
  : result (Message.t * DB) :=
  _ ← connection db;
  id ← autoincrement (messages_seq db) (map Message.ID (messages db));
  let msg := {| Message.ID := id; Message.FromInstance := from;
                Message.ToInstance := to; Message.Content := content;
                Message.CreatedAt := now; Message.ReadAt := None |} in
  Ok (msg, set_messages db (messages db ++ [msg]) id).

Definition unread (m : Message.t) : bool :=
  match Message.ReadAt m with None => true | Some _ => false end.

Definition GetMessages (db : DB) (toInstance : string) (unreadOnly : bool)
  : result (list Message.t) :=
  _ ← connection db;
  Ok (order_by_asc Message.CreatedAt
        (List.filter
           (fun m => String.eqb (Message.ToInstance m) toInstance
                     && (negb unreadOnly || unread m))
           (messages db))).

Definition MarkMessageRead (db : DB) (now : Time) (id : Z) : result DB :=
  _ ← connection db;
  Ok (set_messages db
        (map (fun m => if Message.ID m =? id
                       then Message.set_ReadAt m now else m)
           (messages db))
        (messages_seq db)).

Definition Close (db : DB) : DB :=
  {| facts := facts db; facts_seq := facts_seq db; instances := instances db;
     messages := messages db; messages_seq := messages_seq db;
     closed := true |}.

(** ** Tool arguments ([map[string]interface{}])

    What [encoding/json] puts into an [interface{}]: [nil], [bool],
    [float64], [string], [[]interface{}] or [map[string]interface{}]. *)

(** A finite [float64], the only kind a JSON number decodes to:
    [(-1)^negative * mantissa * 2^exponent]. *)
Record Float64 := {
  negative : bool;
  mantissa : N;
  exponent : Z
}.

#[warnings="-register-all"] Inductive JSON :=
| JNull
| JBool (b : bool)
| JNumber (f : Float64)
| JString (s : string)
| JArray (elems : list JSON)
| JObject (fields : list (string * JSON)).


(** [int(l)] for a [float64]: the fraction is discarded (truncation
    towards zero).  Go leaves the result open when the value does not fit
    an [int]; the model takes what amd64 yields, the smallest [int64]. *)
Definition int_of_float64 (f : Float64) : Z :=
  let m := Z.of_N (mantissa f) in
  let magnitude :=
    if 0 <=? exponent f then m * 2 ^ exponent f
    else m / 2 ^ (- exponent f) in
  let z := if negative f then - magnitude else magnitude in
  if (MinInt64 <=? z) && (z <=? MaxInt64) then z else MinInt64.

(** Type assertions [v.(string)], [v.([]interface{})], [v.(bool)],
    [v.(float64)] on the value found under a key ([None]: no such key). *)
Definition as_string (v : option JSON) : option string :=
  match v with Some (JString s) => Some s | _ => None end.

Definition as_array (v : option JSON) : option (list JSON) :=
  match v with Some (JArray l) => Some l | _ => None end.

Definition as_bool (v : option JSON) : option bool :=
  match v with Some (JBool b) => Some b | _ => None end.

Definition as_float64 (v : option JSON) : option Float64 :=
  match v with Some (JNumber f) => Some f | _ => None end.

(** ** Tool handlers ([internal/mcp/tools.go]) *)

Record ContentBlock := {
  Type_ : string;
  Text : string
}.

Record ToolResult := {
  Content : list ContentBlock;
  IsError : bool
}.

Record Server := {
  instanceID : string;
  workDir : string
}.

(** [time.Time.Format(layout)] is Go's; it depends on the time zone of the
    process. *)
Class TimeFormat := {
  Format : Time -> string -> string
}.

Definition nl : string := str1 "010"%char.

Definition textResult (text : string) : ToolResult :=
  {| Content := [ {| Type_ := "text"; Text := text |} ]; IsError := false |}.

Definition errorResult (msg : string) : ToolResult :=
  {| Content := [ {| Type_ := "text"; Text := msg |} ]; IsError := true |}.

(** The source calls [truncate] with [maxLen = 100] only. *)
Definition truncate (s : string) (maxLen : Z) : string :=
  if len s <=? maxLen then s
  else slice_to (Z.to_nat (maxLen - 3)) s +:+ "...".

(** The loop over [tagsRaw]: the elements that are strings, in order. *)
Fixpoint stringElements (tagsRaw : list JSON) : list string :=
  match tagsRaw with
  | [] => []
  | t :: rest =>
      match as_string (Some t) with
      | Some tag => tag :: stringElements rest
      | None => stringElements rest
      end
  end.

Definition tagsArgument (args : gmap string JSON) : list string :=
  match as_array (args !! "tags") with
  | Some tagsRaw => stringElements tagsRaw
  | None => []
  end.

Definition minute : Z := 60 * 1000000000.

Section Tools.

Context `{SearchEngine} `{TimeFormat}.

Definition toolRemember (s : Server) (now : Time) (args : gmap string JSON)
    (db : DB) : ToolResult * DB :=
  match as_string (args !! "fact") with
  | None => (errorResult "fact is required", db)
  | Some fact =>
      if is_empty fact then (errorResult "fact is required", db)
      else
        let tags := tagsArgument args in
        match AddFact db now fact tags (workDir s) with
        | Err err => (errorResult ("failed to store fact: " +:+ err), db)
        | Ok (stored, db') =>
            (textResult ("Stored fact #" +:+ itoa (Fact.ID stored) +:+ ": "
                         +:+ truncate fact 100), db')
        end
  end.

Definition renderFact (f : Fact.t) : string :=
  "**#" +:+ itoa (Fact.ID f) +:+ "** ["
    +:+ Format (Fact.CreatedAt f) "2006-01-02 15:04" +:+ "]" +:+ nl
  +:+ (if 0 <? Z.of_nat (length (Fact.Tags f))
       then "Tags: " +:+ Join (Fact.Tags f) ", " +:+ nl
       else EmptyString)
  +:+ "Dir: " +:+ Fact.SourceDir f +:+ nl
  +:+ Fact.Content f +:+ nl +:+ nl.

Definition toolRecall (s : Server) (args : gmap string JSON) (db : DB)
  : ToolResult :=
  let query := default EmptyString (as_string (args !! "query")) in
  let tags := tagsArgument args in
  let sourceDir :=
    match as_bool (args !! "current_dir_only") with
    | Some true => workDir s
    | _ => EmptyString
    end in
  let limit :=
    match as_float64 (args !! "limit") with
    | Some l => int_of_float64 l
    | None => 20
    end in
  match GetFacts db query tags sourceDir limit with
  | Err err => errorResult ("failed to recall facts: " +:+ err)
  | Ok facts =>
      if (length facts =? 0)%nat then
        textResult "No facts found matching your query."
      else
        textResult
          (fold_left (fun sb f => sb +:+ renderFact f) facts
             ("Found " +:+ itoa (Z.of_nat (length facts)) +:+ " fact(s):"
              +:+ nl +:+ nl))
  end.

Definition tagSuffix (tags : list string) : string :=
  if (0 <? length tags)%nat then " [" +:+ Join tags ", " +:+ "]"
  else EmptyString.

Definition toolGetContext (s : Server) (args : gmap string JSON) (db : DB)
  : ToolResult :=
  match GetFacts db EmptyString [] (workDir s) 50 with
  | Err err => errorResult ("failed to get local context: " +:+ err)
  | Ok localFacts =>
      match GetFacts db EmptyString [] EmptyString 20 with
      | Err err => errorResult ("failed to get global context: " +:+ err)
      | Ok globalFacts =>
          let sb := "# Context for " +:+ workDir s +:+ nl +:+ nl in
          let sb :=
            if (0 <? length localFacts)%nat then
              fold_left
                (fun sb f => sb +:+ "- " +:+ Fact.Content f
                                +:+ tagSuffix (Fact.Tags f) +:+ nl)
                localFacts
                (sb +:+ "## Local Facts (this directory)" +:+ nl +:+ nl)
              +:+ nl
            else sb in
          let localIDs := map Fact.ID localFacts in
          let otherFacts :=
            List.filter
              (fun f => negb (existsb (Z.eqb (Fact.ID f)) localIDs))
              globalFacts in
          let sb :=
            if (0 <? length otherFacts)%nat then
              fold_left
                (fun sb f => sb +:+ "- " +:+ Fact.Content f +:+ " ("
                                +:+ Fact.SourceDir f +:+ ")"
                                +:+ tagSuffix (Fact.Tags f) +:+ nl)
                otherFacts
                (sb +:+ "## Recent Facts (other directories)" +:+ nl +:+ nl)
            else sb in
          let sb :=
            if (length localFacts =? 0)%nat && (length otherFacts =? 0)%nat
            then sb +:+ "No stored context yet. Use the `remember` tool to store facts and decisions." +:+ nl
            else sb in
          textResult sb
      end
  end.

Definition renderInstance (s : Server) (inst : Instance.t) : string :=
  let status :=
    if String.eqb (Instance.ID inst) (instanceID s)
    then " (this instance)" else EmptyString in
  "**" +:+ Instance.ID inst +:+ "**" +:+ status +:+ nl
  +:+ "  Directory: " +:+ Instance.Directory inst +:+ nl
  +:+ "  Started: "
    +:+ Format (Instance.StartedAt inst) "2006-01-02 15:04:05" +:+ nl
  +:+ "  Last heartbeat: "
    +:+ Format (Instance.LastHeartbeat inst) "15:04:05" +:+ nl +:+ nl.

Definition toolListInstances (s : Server) (now : Time)
    (args : gmap string JSON) (db : DB) : ToolResult * DB :=
  (* Cleanup stale instances first; its error is dropped. *)
  let db :=
    match CleanupStaleInstances db now (5 * minute) with
    | Ok db' => db'
    | Err _ => db
    end in
  match GetInstances db with
  | Err err => (errorResult ("failed to list instances: " +:+ err), db)
  | Ok instances =>
      if (length instances =? 0)%nat then
        (textResult "No other running instances found.", db)
      else
        (textResult
           (fold_left (fun sb inst => sb +:+ renderInstance s inst) instances
              ("Found " +:+ itoa (Z.of_nat (length instances))
               +:+ " running instance(s):" +:+ nl +:+ nl)), db)
  end.

Definition toolSendMessage (s : Server) (now : Time)
    (args : gmap string JSON) (db : DB) : ToolResult * DB :=
  match as_string (args !! "to") with
  | None => (errorResult "'to' instance ID is required", db)
  | Some to =>
      if is_empty to then (errorResult "'to' instance ID is required", db)
      else
        match as_string (args !! "content") with
        | None => (errorResult "'content' is required", db)
        | Some content =>
            if is_empty content
            then (errorResult "'content' is required", db)
            else
              (* Check if target instance exists *)
              match GetInstance db to with
              | Err err =>
                  (errorResult ("failed to find instance: " +:+ err), db)
              | Ok None =>
                  (errorResult ("instance '" +:+ to +:+ "' not found"), db)
              | Ok (Some target) =>
                  match SendMessage db now (instanceID s) to content with
                  | Err err =>
                      (errorResult ("failed to send message: " +:+ err), db)
                  | Ok (msg, db') =>
                      (textResult ("Message #" +:+ itoa (Message.ID msg)
                                   +:+ " sent to " +:+ to), db')
                  end
              end
        end
  end.

Definition unreadOnlyArgument (args : gmap string JSON) : bool :=
  match as_bool (args !! "unread_only") with
  | Some val => val
  | None => true
  end.

Definition renderMessage (m : Message.t) : string :=
  let readStatus :=
    match Message.ReadAt m with
    | Some readAt => "read at " +:+ Format readAt "15:04"
    | None => "unread"
    end in
  "**#" +:+ itoa (Message.ID m) +:+ "** from " +:+ Message.FromInstance m
    +:+ " (" +:+ readStatus +:+ ")" +:+ nl
  +:+ "  Time: " +:+ Format (Message.CreatedAt m) "2006-01-02 15:04:05" +:+ nl
  +:+ "  " +:+ Message.Content m +:+ nl +:+ nl.

(** One turn of the loop over the messages: the message is written to
    the builder and, when its [ReadAt] is nil, marked as read; an error
    of [MarkMessageRead] is dropped. *)
Definition showMessage (now : Time) (acc : string * DB) (m : Message.t)
  : string * DB :=
  let '(sb, db) := acc in
  (sb +:+ renderMessage m,
   match Message.ReadAt m with
   | None =>
       match MarkMessageRead db now (Message.ID m) with
       | Ok db' => db'
       | Err _ => db
       end
   | Some _ => db
   end).

Definition toolGetMessages (s : Server) (now : Time)
    (args : gmap string JSON) (db : DB) : ToolResult * DB :=
  let unreadOnly := unreadOnlyArgument args in
  match GetMessages db (instanceID s) unreadOnly with
  | Err err => (errorResult ("failed to get messages: " +:+ err), db)
  | Ok messages =>
      if (length messages =? 0)%nat then
        if unreadOnly then (textResult "No unread messages.", db)
        else (textResult "No messages.", db)
      else
        let '(sb, db') :=
          fold_left (showMessage now) messages
            ("Found " +:+ itoa (Z.of_nat (length messages))
             +:+ " message(s):" +:+ nl +:+ nl, db) in
        (textResult sb, db')
  end.

End Tools.

(** ** Protocol engine ([internal/mcp/server.go]) *)

Definition ProtocolVersion : string := "2024-11-05".
Definition ServerName : string := "clauder".
Definition ServerVersion : string := "0.1.0".

(** An [ID] is an [interface{}]: [JNull] is the nil interface, which is
    also what an absent or [null] id decodes to.  [Params] is a
    [json.RawMessage], the bytes of the member as they came. *)
Module Request.
Record t := {
  JSONRPC : string;
  ID : JSON;
  Method : string;
  Params : string
}.
End Request.

Record Error := {
  Code : Z;
  Message : string;
  Data : JSON
}.

Record ToolsCapability := {
  ListChanged : bool
}.

Record ServerCapability := {
  Tools : option ToolsCapability
}.

Record ServerInfo := {
  Name : string;
  Version : string
}.

Record InitializeResult := {
  InitProtocolVersion : string;
  Capabilities : ServerCapability;
  ServerInfo_ : ServerInfo
}.

Record Property := {
  PropertyType : string;
  PropertyDescription : string;
  Items : option string
}.

Record InputSchema := {
  SchemaType : string;
  Properties : list (string * Property);
  Required : list string
}.

Module Tool.
Record t := {
  Name : string;
  Description : string;
  Schema : InputSchema
}.
End Tool.

Module ToolCallParams.
Record t := {
  Name : string;
  Arguments : gmap string JSON
}.
End ToolCallParams.

(** The values the server puts into [Response.Result]. *)
Inductive ResultValue :=
| InitializeValue (r : InitializeResult)
| ToolsValue (tools : list Tool.t)
| ToolResultValue (r : ToolResult)
| EmptyObject.

Module Response.
Record t := {
  JSONRPC : string;
  ID : JSON;
  Result : option ResultValue;
  Error : option Error
}.
End Response.

(** [json.Unmarshal] of a line into a [Request] and of the raw parameters
    into a [ToolCallParams] ([None]: it returned an error). *)
Class EnvelopeCodec := {
  unmarshalRequest : string -> option Request.t;
  unmarshalToolCallParams : string -> option ToolCallParams.t
}.

(** The writer is the sequence of responses written so far, one line
    each.  The mutex of [send] orders concurrent writers; the loop is the
    only writer here. *)
Definition Writer := list Response.t.

Definition send (w : Writer) (resp : Response.t) : Writer := (w ++ [resp])%list.

Definition sendResult (w : Writer) (id : JSON) (result : ResultValue) : Writer :=
  send w {| Response.JSONRPC := "2.0"; Response.ID := id;
            Response.Result := Some result; Response.Error := None |}.

Definition sendError (w : Writer) (id : JSON) (code : Z) (message : string)
    (data : JSON) : Writer :=
  send w {| Response.JSONRPC := "2.0"; Response.ID := id;
            Response.Result := None;
            Response.Error :=
              Some {| Code := code; Message := message; Data := data |} |}.

Definition stringProperty (description : string) : Property :=
  {| PropertyType := "string"; PropertyDescription := description;
     Items := None |}.

Definition toolCatalog : list Tool.t :=
  [ {| Tool.Name := "remember";
       Tool.Description := "Store a fact, decision, or piece of context for future sessions. Use this to persist important information that should be available across Claude Code sessions.";
       Tool.Schema :=
         {| SchemaType := "object";
            Properties :=
              [ ("fact", stringProperty "The fact, decision, or context to remember");
                ("tags",
                 {| PropertyType := "array";
                    PropertyDescription := "Optional tags to categorize this fact (e.g., 'architecture', 'decision', 'preference')";
                    Items := Some "string" |}) ];
            Required := ["fact"] |} |};
    {| Tool.Name := "recall";
       Tool.Description := "Search and retrieve stored facts. Use this to find previously stored context, decisions, or information.";
       Tool.Schema :=
         {| SchemaType := "object";
            Properties :=
              [ ("query", stringProperty "Search query to find relevant facts (uses full-text search)");
                ("tags",
                 {| PropertyType := "array";
                    PropertyDescription := "Filter by tags";
                    Items := Some "string" |});
                ("current_dir_only",
                 {| PropertyType := "boolean";
                    PropertyDescription := "If true, only return facts from the current directory";
                    Items := None |});
                ("limit",
                 {| PropertyType := "integer";
                    PropertyDescription := "Maximum number of facts to return (default: 20)";
                    Items := None |}) ];
            Required := [] |} |};
    {| Tool.Name := "get_context";
       Tool.Description := "Get all relevant context for the current working directory. Call this at the start of a session to load persistent context.";
       Tool.Schema :=
         {| SchemaType := "object"; Properties := []; Required := [] |} |};
    {| Tool.Name := "list_instances";
       Tool.Description := "List all running clauder instances across different directories. Use this to discover other Claude Code sessions you can communicate with.";
       Tool.Schema :=
         {| SchemaType := "object"; Properties := []; Required := [] |} |};
    {| Tool.Name := "send_message";
       Tool.Description := "Send a message to another running clauder instance. Use this to communicate with Claude Code sessions in other directories.";
       Tool.Schema :=
         {| SchemaType := "object";
            Properties :=
              [ ("to", stringProperty "The instance ID to send the message to");
                ("content", stringProperty "The message content") ];
            Required := ["to"; "content"] |} |};
    {| Tool.Name := "get_messages";
       Tool.Description := "Get messages sent to this instance from other clauder instances.";
       Tool.Schema :=
         {| SchemaType := "object";
            Properties :=
              [ ("unread_only",
                 {| PropertyType := "boolean";
                    PropertyDescription := "If true, only return unread messages (default: true)";
                    Items := None |}) ];
            Required := [] |} |} ].

Section Engine.

Context `{SearchEngine} `{TimeFormat} `{EnvelopeCodec}.

Definition handleInitialize (w : Writer) (req : Request.t) : Writer :=
  let result :=
    {| InitProtocolVersion := ProtocolVersion;
       Capabilities := {| Tools := Some {| ListChanged := false |} |};
       ServerInfo_ := {| Name := ServerName; Version := ServerVersion |} |} in
  sendResult w (Request.ID req) (InitializeValue result).

Definition handleToolsList (w : Writer) (req : Request.t) : Writer :=
  sendResult w (Request.ID req) (ToolsValue toolCatalog).

(** The switch on the tool name. *)
Definition callTool (s : Server) (now : Time) (params : ToolCallParams.t)
    (db : DB) : ToolResult * DB :=
  let name := ToolCallParams.Name params in
  let args := ToolCallParams.Arguments params in
  if String.eqb name "remember" then toolRemember s now args db
  else if String.eqb name "recall" then (toolRecall s args db, db)
  else if String.eqb name "get_context" then (toolGetContext s args db, db)
  else if String.eqb name "list_instances" then toolListInstances s now args db
  else if String.eqb name "send_message" then toolSendMessage s now args db
  else if String.eqb name "get_messages" then toolGetMessages s now args db
  else ({| Content := [ {| Type_ := "text";
                           Text := "Unknown tool: " +:+ name |} ];
           IsError := true |}, db).

Definition handleToolCall (s : Server) (now : Time) (w : Writer)
    (req : Request.t) (db : DB) : Writer * DB :=
  match unmarshalToolCallParams (Request.Params req) with
  | None => (sendError w (Request.ID req) (-32602) "Invalid params" JNull, db)
  | Some params =>
      let '(result, db') := callTool s now params db in
      (sendResult w (Request.ID req) (ToolResultValue result), db')
  end.

Definition handleRequest (s : Server) (now : Time) (w : Writer)
    (req : Request.t) (db : DB) : Writer * DB :=
  let method := Request.Method req in
  if String.eqb method "initialize" then (handleInitialize w req, db)
  else if String.eqb method "initialized" then (w, db)  (* No response needed *)
  else if String.eqb method "tools/list" then (handleToolsList w req, db)
  else if String.eqb method "tools/call" then handleToolCall s now w req db
  else if String.eqb method "ping" then
    (sendResult w (Request.ID req) EmptyObject, db)
  else (sendError w (Request.ID req) (-32601) "Method not found" JNull, db).

(** What the reader delivers: the newline-terminated lines, each with the
    instant at which the loop handles it, and then the error that ends the
    stream, [io.EOF] or another one.  Bytes after the last newline come
    with that error and the loop drops them. *)
Inductive ReadEnd :=
| EOF
| ReadFailure (err : error).

(** [Server.Run]: the value returned ([None] is a nil error), the writer
    and the database when the loop ends. *)
Fixpoint Run (s : Server) (lines : list (Time * string)) (ending : ReadEnd)
    (w : Writer) (db : DB) : option error * Writer * DB :=
  match lines with
  | [] =>
      match ending with
      | EOF => (None, w, db)
      | ReadFailure err => (Some ("read error: " +:+ err), w, db)
      end
  | (now, line) :: rest =>
      match unmarshalRequest line with
      | None => Run s rest ending (sendError w JNull (-32700) "Parse error" JNull) db
      | Some req =>
          let '(w', db') := handleRequest s now w req db in
          Run s rest ending w' db'
      end
  end.

End Engine.

(** ** Command line ([cmd/send.go], [cmd/remember.go])

    A command opens the database on a handle of its own
    ([store.NewSQLiteStore]) and closes that handle when it returns.
    [opened] is what the opening gave: the error, or the database as the
    new handle sees it.  A command yields the error it returns ([None] is
    nil), what it printed on the standard output, and the database it
    leaves. *)

Definition CommandResult : Type := option error * string * result DB.

(** [args[0]] panics on an empty [args]: that is [None].  The command is
    declared with [cobra.MinimumNArgs(2)]. *)
Definition runSend (now : Time) (opened : result DB) (args : list string)
  : option CommandResult :=
  match opened with
  | Err err =>
      Some (Some ("failed to open store: " +:+ err), EmptyString, opened)
  | Ok db =>
      match args with
      | [] => None
      | to :: rest =>
          let content := Join rest " " in
          (* Check if target instance exists *)
          match GetInstance db to with
          | Err err =>
              Some (Some ("failed to find instance: " +:+ err), EmptyString,
                    opened)
          | Ok None =>
              Some (Some ("instance '" +:+ to +:+ "' not found"), EmptyString,
                    opened)
          | Ok (Some target) =>
              match SendMessage db now "cli" to content with
              | Err err =>
                  Some (Some ("failed to send message: " +:+ err),
                        EmptyString, opened)
              | Ok (msg, db') =>
                  Some (None,
                        "Message #" +:+ itoa (Message.ID msg) +:+ " sent to "
                        +:+ to +:+ nl,
                        Ok db')
              end
          end
      end
  end.

(** [getwd] is what [os.Getwd] gave, [rememberTags] the value of the
    flag [--tags]. *)
Definition runRemember (now : Time) (opened : result DB)
    (getwd : result string) (rememberTags : list string) (args : list string)
  : CommandResult :=
  match opened with
  | Err err => (Some ("failed to open store: " +:+ err), EmptyString, opened)
  | Ok db =>
      match getwd with
      | Err err =>
          (Some ("failed to get working directory: " +:+ err), EmptyString,
           opened)
      | Ok workDir =>
          let fact := Join args " " in
          match AddFact db now fact rememberTags workDir with
          | Err err =>
              (Some ("failed to store fact: " +:+ err), EmptyString, opened)
          | Ok (stored, db') =>
              (None, "Stored fact #" +:+ itoa (Fact.ID stored) +:+ nl, Ok db')
          end
      end
  end.

(** ** Histories of the shared database

    The database file is shared by every server process and by the
    command-line entry points.  All of them change it through the methods
    of the store only: one [step] is one such method succeeding. *)

Inductive step : DB -> DB -> Prop :=
| step_AddFact db now content tags sourceDir f db' :
    AddFact db now content tags sourceDir = Ok (f, db') -> step db db'
| step_DeleteFact db id db' :
    DeleteFact db id = Ok db' -> step db db'
| step_RegisterInstance db now id pid directory db' :
    RegisterInstance db now id pid directory = Ok db' -> step db db'
| step_Heartbeat db now id db' :
    Heartbeat db now id = Ok db' -> step db db'
| step_UnregisterInstance db id db' :
    UnregisterInstance db id = Ok db' -> step db db'
| step_CleanupStaleInstances db now maxAge db' :
    CleanupStaleInstances db now maxAge = Ok db' -> step db db'
| step_SendMessage db now from to content m db' :
    SendMessage db now from to content = Ok (m, db') -> step db db'
| step_MarkMessageRead db now id db' :
    MarkMessageRead db now id = Ok db' -> step db db'
| step_Close db :
    step db (Close db).

Definition evolves : DB -> DB -> Prop := rtc step.

(** ** Vocabulary of the properties *)

Section Matching.

Context `{SearchEngine}.



End Matching.

(** *** Plain tags

    A tag is plain for storing when [json.Marshal] writes its bytes as they
    are: ASCII, no control character, none of the double quote, the
    backslash and the three characters escaped for HTML.  It is plain for
    filtering when, in addition, it has none of the two wildcards of [LIKE]
    and no comma. *)








(** *** Three readings of patterns, used to reason on [LIKE] *)




(** A [get_messages] call by server [s] with arguments [args] on
    database [db] returns the message with identifier [id] as unread. *)
Definition finds_unread (db : DB) (s : Server) (args : gmap string JSON)
    (id : Z) : Prop :=
  exists msgs m,
    GetMessages db (instanceID s) (unreadOnlyArgument args) = Ok msgs /\
    m ∈ msgs /\ Message.ID m = id /\ Message.ReadAt m = None.

(** The row [row] after the messages [returned] have been shown at [now]:
    it is marked read when a returned unread message has its id. *)
Definition mark_returned (now : Time) (returned : list Message.t)
    (row : Message.t) : Message.t :=
  if existsb (fun m => unread m && (Message.ID m =? Message.ID row)) returned
  then Message.set_ReadAt row now
  else row.

(** The identifier [id] is settled in [db]: some row has it, and every row
    that has it has been read. *)
Definition settled (id : Z) (db : DB) : Prop :=
  (exists m, m ∈ messages db /\ Message.ID m = id) /\
  (forall m, m ∈ messages db -> Message.ID m = id -> Message.ReadAt m <> None).

(** The row [AddFact] writes for a fact it returns. *)
Definition stored_row (f : Fact.t) : FactRow :=
  {| row_id := Fact.ID f; row_content := Fact.Content f;
     row_tags := TagsJSON.Marshal (Fact.Tags f);
     row_source_dir := Fact.SourceDir f;
     row_created_at := Fact.CreatedAt f;
     row_updated_at := Fact.UpdatedAt f |}.

(** The identifier of [row] has been given out, and no other row has it. *)
Definition row_kept (row : FactRow) (db : DB) : Prop :=
  row_id row <= facts_seq db /\
  (forall r, r ∈ facts db -> row_id r = row_id row -> r = row).

(** ** Concrete collaborators, for running the model

    A search engine whose tokens are single bytes (a phrase is contained
    when it occurs as a run of bytes), and a clock face that prints an
    instant as its number. *)

Fixpoint has_prefix (p s : string) : bool :=
  match p, s with
  | EmptyString, _ => true
  | String a p', String b s' => Ascii.eqb a b && has_prefix p' s'
  | String _ _, EmptyString => false
  end.

Fixpoint contains (needle hay : string) : bool :=
  has_prefix needle hay ||
  match hay with
  | EmptyString => false
  | String _ hay' => contains needle hay'
  end.

Definition byte_engine : SearchEngine :=
  {| fts5_phrase_match := fun phrase content => contains phrase content |}.

Definition numeric_clock : TimeFormat :=
  {| Format := fun t _ => itoa t |}.

(** A codec for one shape of line, enough to run the loop: a line
    [{"method":"<name>"}] followed by a newline decodes to a request with
    that method, no id and no parameters; nothing else decodes. *)

Fixpoint strip_prefix (p s : string) : option string :=
  match p, s with
  | EmptyString, _ => Some s
  | String a p', String b s' => if Ascii.eqb a b then strip_prefix p' s' else None
  | String _ _, EmptyString => None
  end.

Fixpoint until_dquote (s : string) : option (string * string) :=
  match s with
  | EmptyString => None
  | String c s' =>
      if is_dquote c then Some (EmptyString, s')
      else
        match until_dquote s' with
        | Some (word, rest) => Some (String c word, rest)
        | None => None
        end
  end.

Definition method_line (name : string) : string :=
  "{" +:+ str1 dquote +:+ "method" +:+ str1 dquote +:+ ":"
  +:+ str1 dquote +:+ name +:+ str1 dquote +:+ "}" +:+ nl.

Definition method_codec : EnvelopeCodec :=
  {| unmarshalRequest := fun line =>
       match strip_prefix
               ("{" +:+ str1 dquote +:+ "method" +:+ str1 dquote +:+ ":"
                +:+ str1 dquote) line with
       | Some rest =>
           match until_dquote rest with
           | Some (name, tail) =>
               if String.eqb tail ("}" +:+ nl) then
                 Some {| Request.JSONRPC := EmptyString; Request.ID := JNull;
                         Request.Method := name;
                         Request.Params := EmptyString |}
               else None
           | None => None
           end
       | None => None
       end;
     unmarshalToolCallParams := fun _ => None |}.

(** *** Concrete servers and databases *)

Definition me : Server := {| instanceID := "a1b2c3d4"; workDir := "/home/dev/app" |}.



(** Two instances at [now = 10 minutes]: one last heard of at minute 1,
    one at minute 9. *)
Definition two_instances : DB :=
  {| facts := []; facts_seq := 0;
     instances :=
       [ {| Instance.ID := "old"; Instance.PID := 111;
            Instance.Directory := "/old";
            Instance.StartedAt := 0; Instance.LastHeartbeat := 1 * minute |};
         {| Instance.ID := "new"; Instance.PID := 222;
            Instance.Directory := "/new";
            Instance.StartedAt := 0; Instance.LastHeartbeat := 9 * minute |} ];
     messages := []; messages_seq := 0; closed := false |}.

Definition hello : Message.t :=
  {| Message.ID := 1; Message.FromInstance := "e5f6a7b8";
     Message.ToInstance := "a1b2c3d4"; Message.Content := "hello";
     Message.CreatedAt := 5; Message.ReadAt := None |}.

Definition inbox : DB :=
  {| facts := []; facts_seq := 0; instances := [];
     messages := [hello]; messages_seq := 1; closed := false |}.

(** *** Helpers to replay the repository's tests *)

(** The database after a successful [AddFact], the database as it was
    otherwise (the tests drop the error). *)
Definition added (db : DB) (now : Time) (content : string)
    (tags : list string) (sourceDir : string) : DB :=
  match AddFact db now content tags sourceDir with
  | Ok (_, db') => db'
  | Err _ => db
  end.

Fixpoint added_times (n : nat) (db : DB) (content : string)
    (sourceDir : string) : DB :=
  match n with
  | O => db
  | S k => added_times k (added db (Z.of_nat k) content [] sourceDir)
             content sourceDir
  end.

Definition registered (db : DB) (now : Time) (id : string) (pid : Z)
    (directory : string) : DB :=
  match RegisterInstance db now id pid directory with
  | Ok db' => db'
  | Err _ => db
  end.

Definition sent (db : DB) (now : Time) (from to content : string) : DB :=
  match SendMessage db now from to content with
  | Ok (_, db') => db'
  | Err _ => db
  end.

Definition test_server : Server :=
  {| instanceID := "test-instance"; workDir := "/test/workdir" |}.

(** A database after one note, and after a second one. *)
Definition one_note : DB :=
  added empty_db 0 "use sqlite" ["arch"; "decision"] "/p".

Definition two_notes : DB := added one_note 1 "another note" ["misc"] "/q".

(** *** Vocabulary of the further properties *)

(** A string of ASCII bytes.  On such strings the model of
    [encoding/json] is exact; outside them Go replaces ill-formed UTF-8. *)
Definition is_ascii (c : ascii) : bool := (N_of_ascii c <? 128)%N.

Definition ascii_text (s : string) : Prop := all_bytes is_ascii s = true.

(** What follows the first element in the serialised list of
    [first :: tags]: the other elements, each after a comma, and the closing
    bracket. *)
Fixpoint tags_tail (tags : list string) : string :=
  match tags with
  | [] => "]"
  | t :: ts => "," +:+ TagsJSON.quote t +:+ tags_tail ts
  end.

(** The message [m] is kept in [db]: its identifier has been given out,
    and the one row that has it carries the sender, the recipient, the
    content and the time of sending of [m]. *)
Definition same_letter (m m' : Message.t) : Prop :=
  Message.ID m' = Message.ID m /\
  Message.FromInstance m' = Message.FromInstance m /\
  Message.ToInstance m' = Message.ToInstance m /\
  Message.Content m' = Message.Content m /\
  Message.CreatedAt m' = Message.CreatedAt m.

Definition message_kept (m : Message.t) (db : DB) : Prop :=
  Message.ID m <= messages_seq db /\
  exists m', m' ∈ messages db /\ same_letter m m' /\
             (forall x, x ∈ messages db -> Message.ID x = Message.ID m -> x = m').

(** Primary keys: no two rows of a table share an identifier, and the
    identifiers of [facts] and [messages] are positive and at most the
    counter of the table. *)
Definition well_keyed (db : DB) : Prop :=
  NoDup (map row_id (facts db)) /\
  Forall (fun r => 0 < row_id r <= facts_seq db) (facts db) /\
  NoDup (map Instance.ID (instances db)) /\
  NoDup (map Message.ID (messages db)) /\
  Forall (fun m => 0 < Message.ID m <= messages_seq db) (messages db).

Section Answers.

Context `{EnvelopeCodec}.


End Answers.

(** *** Concrete histories of the further properties *)

(** The database after the one note was deleted, and after the inbox was
    read. *)
Definition note_deleted : DB :=
  match DeleteFact one_note 1 with
  | Ok db => db
  | Err _ => one_note
  end.

Definition inbox_read : DB :=
  match MarkMessageRead inbox 9 1 with
  | Ok db => db
  | Err _ => inbox
  end.

(** The database of a server that has registered as [me]. *)
Definition me_registered : DB := registered empty_db 0 "a1b2c3d4" 4242 "/home/dev/app".

(** * Part II: properties *)

Import Like.

(** ** Byte strings *)


Lemma is_empty_false (s : string) : is_empty s = false <-> s <> EmptyString.
Proof. destruct s; simpl; split; congruence. Qed.

Lemma append_cons (c : ascii) (a b : string) :
  String c a +:+ b = String c (a +:+ b).
Proof. reflexivity. Qed.


Lemma append_assoc (a b c : string) : (a +:+ b) +:+ c = a +:+ (b +:+ c).
Proof.
  induction a as [|x a IH]; [reflexivity |].
  now rewrite !append_cons, IH.
Qed.

Lemma length_append (a b : string) :
  String.length (a +:+ b) = (String.length a + String.length b)%nat.
Proof.
  induction a as [|x a IH]; [reflexivity |].
  rewrite append_cons. simpl. now rewrite IH.
Qed.

Lemma length_Repeat (c : ascii) (n : nat) : String.length (Repeat c n) = n.
Proof. induction n as [|n IH]; simpl; [reflexivity | now rewrite IH]. Qed.

Lemma is_dquote_true (c : ascii) : is_dquote c = true <-> c = dquote.
Proof. unfold is_dquote. apply Ascii.eqb_eq. Qed.



(** ** The sanitised query is one FTS5 string literal *)




(** ** What [GetFacts] returns *)

Section GetFactsProps.

Context `{SearchEngine}.

Lemma connection_open (db : DB) : closed db = false -> connection db = Ok tt.
Proof. unfold connection. now intros ->. Qed.

Lemma connection_closed (db : DB) :
  closed db = true -> connection db = Err "sql: database is closed".
Proof. unfold connection. now intros ->. Qed.




Lemma GetFacts_closed (db : DB) (query : string) (tags : list string)
    (sourceDir : string) (limit : Z) :
  closed db = true ->
  GetFacts db query tags sourceDir limit = Err "sql: database is closed".
Proof.
  intros Hclosed. unfold GetFacts, runFactQuery.
  now rewrite (connection_closed db Hclosed).
Qed.


Lemma order_by_asc_Permutation {A : Type} (key : A -> Time) (l : list A) :
  order_by_asc key l ≡ₚ l.
Proof. apply merge_sort_Permutation. Qed.


End GetFactsProps.

(** ** Free-text search *)

Section FreeText.

Context `{SearchEngine}.


End FreeText.

(** ** Limits *)

Section Limits.

Context `{SearchEngine}.



End Limits.

(** ** Corrupted tags *)

Section CorruptTags.

Context `{SearchEngine}.



End CorruptTags.

(** ** Stale instances *)




(** ** Tool handlers *)

Lemma find_none_iff {A : Type} (p : A -> bool) (l : list A) :
  List.find p l = None <-> forall x, x ∈ l -> p x = false.
Proof.
  split.
  - intros Hnone x Hx. apply list_elem_of_In in Hx.
    exact (List.find_none p l Hnone x Hx).
  - intros Hall. induction l as [|a l IH]; [reflexivity |].
    simpl. rewrite (Hall a) by (left). apply IH.
    intros x Hx. apply Hall. now right.
Qed.


Lemma is_empty_nonempty (s : string) :
  s <> EmptyString -> is_empty s = false.
Proof. apply is_empty_false. Qed.

Lemma AddFact_empty_db (now : Time) (content : string) (tags : list string)
    (sourceDir : string) :
  AddFact empty_db now content tags sourceDir
  = Ok ({| Fact.ID := 1; Fact.Content := content; Fact.Tags := tags;
           Fact.SourceDir := sourceDir;
           Fact.CreatedAt := now; Fact.UpdatedAt := now |},
        {| facts := [ {| row_id := 1; row_content := content;
                         row_tags := TagsJSON.Marshal tags;
                         row_source_dir := sourceDir;
                         row_created_at := now; row_updated_at := now |} ];
           facts_seq := 1; instances := []; messages := [];
           messages_seq := 0; closed := false |}).
Proof. reflexivity. Qed.

(** C2 (what the code does). Whatever the value of the limit
    [MaxFactSize], [toolRemember] stores a fact one byte longer than it:
    the result is not an error and the fact is in the table, whole. *)
Theorem remember_stores_oversized_fact (MaxFactSize : nat) (s : Server)
    (now : Time) :
  let fact := Repeat "x" (S MaxFactSize) in
  let out := toolRemember s now {[ "fact" := JString fact ]} empty_db in
  Z.of_nat MaxFactSize < len fact /\
  IsError (fst out) = false /\
  Text <$> Content (fst out)
  = ["Stored fact #1: " +:+ truncate fact 100] /\
  map row_content (facts (snd out)) = [fact].
Proof.
  cbv zeta. unfold toolRemember, tagsArgument.
  rewrite lookup_singleton_eq.
  rewrite lookup_singleton_ne by discriminate.
  cbn [as_string as_array Repeat is_empty].
  rewrite AddFact_empty_db. cbn [fst snd IsError Content textResult facts].
  split; [| repeat split].
  unfold len. cbn [String.length]. rewrite length_Repeat. lia.
Qed.

(** C4. [toolSendMessage] looks the recipient up before it creates
    anything.  Whatever the arguments and the database, either the
    database is left as it was, or the recipient named by [to] is a
    registered instance and exactly one message to it was appended.  And
    when [to] and [content] are non-empty strings, the database is open and
    no instance is registered under [to], the result is the error
    [instance '<to>' not found] and no row is created. *)
Theorem send_message_checks_recipient (s : Server) (now : Time)
    (args : gmap string JSON) (db : DB) :
  let out := toolSendMessage s now args db in
  (snd out = db \/
   exists to target m,
     args !! "to" = Some (JString to) /\
     target ∈ instances db /\ Instance.ID target = to /\
     Message.ToInstance m = to /\
     messages (snd out) = (messages db ++ [m])%list /\
     IsError (fst out) = false)
  /\ (forall to content,
         args !! "to" = Some (JString to) -> to <> EmptyString ->
         args !! "content" = Some (JString content) -> content <> EmptyString ->
         closed db = false ->
         (forall i, i ∈ instances db -> Instance.ID i <> to) ->
         fst out = errorResult ("instance '" +:+ to +:+ "' not found")
         /\ IsError (fst out) = true
         /\ snd out = db).
Proof.
  cbv zeta. split.
  - unfold toolSendMessage.
    destruct (args !! "to") as [[| | |to| |]|] eqn:Hto; cbn [as_string];
      try (left; reflexivity).
    destruct (is_empty to); [left; reflexivity |].
    destruct (as_string (args !! "content")) as [content|];
      [| left; reflexivity].
    destruct (is_empty content); [left; reflexivity |].
    destruct (GetInstance db to) as [[target|]|err] eqn:Hget;
      try (left; reflexivity).
    destruct (SendMessage db now (instanceID s) to content)
      as [[m db']|err] eqn:Hsend; [| left; reflexivity].
    right. exists to, target, m.
    unfold GetInstance in Hget. unfold SendMessage in Hsend.
    destruct (connection db); cbn [mbind result_bind] in *; [| discriminate].
    destruct (autoincrement (messages_seq db) (map Message.ID (messages db)))
      as [id|]; cbn [mbind result_bind] in Hsend; [| discriminate].
    injection Hget as Hfind. injection Hsend as Hm Hdb. subst m db'.
    apply List.find_some in Hfind as [Hin Hid].
    apply String.eqb_eq in Hid. apply list_elem_of_In in Hin.
    cbn. repeat split; auto.
  - intros to content Hto Hne Hcontent Hce Hopen Hnone.
    unfold toolSendMessage. rewrite Hto, Hcontent. cbn [as_string].
    rewrite (is_empty_nonempty to Hne), (is_empty_nonempty content Hce).
    unfold GetInstance. rewrite (connection_open db Hopen).
    cbn [mbind result_bind].
    assert (Hfind : List.find (fun i => String.eqb (Instance.ID i) to)
                      (instances db) = None).
    { apply find_none_iff. intros i Hi. apply String.eqb_neq. now apply Hnone. }
    rewrite Hfind. repeat split.
Qed.

Section TagArguments.

Context `{SearchEngine} `{TimeFormat}.


End TagArguments.

(** ** Messages are found unread once *)

Lemma set_messages_same (db : DB) :
  set_messages db (messages db) (messages_seq db) = db.
Proof. now destruct db. Qed.

Lemma max_rowid_bound (ids : list Z) (x : Z) : x ∈ ids -> x <= max_rowid ids.
Proof.
  induction ids as [|y ids IH]; intros Hx.
  - inversion Hx.
  - apply elem_of_cons in Hx as [-> | Hx]; simpl; [lia |].
    specialize (IH Hx). lia.
Qed.

(** A new rowid is larger than every rowid of the table. *)
Lemma autoincrement_fresh (seq : Z) (ids : list Z) (id : Z) :
  autoincrement seq ids = Ok id -> forall x, x ∈ ids -> x < id.
Proof.
  unfold autoincrement. destruct (MaxInt64 <=? _); [discriminate |].
  intros [= <-] x Hx. pose proof (max_rowid_bound ids x Hx). lia.
Qed.

(** A store method that succeeded found the database open. *)
Ltac opened H :=
  match type of H with
  | context [connection ?db] =>
      destruct (connection db); cbn [mbind result_bind] in H;
      [| discriminate H]
  end.

(** A successful [autoincrement], named. *)
Ltac numbered H id Hid :=
  match type of H with
  | context [autoincrement ?seq ?ids] =>
      destruct (autoincrement seq ids) as [id|] eqn:Hid;
      cbn [mbind result_bind] in H; [| discriminate H]
  end.

Lemma step_settled (id : Z) (db db' : DB) :
  step db db' -> settled id db -> settled id db'.
Proof.
  intros Hstep [[m0 [Hin0 Hid0]] Hread].
  destruct Hstep as
    [db now content tags sourceDir f db' Hop
    |db fid db' Hop
    |db now iid pid directory db' Hop
    |db now iid db' Hop
    |db iid db' Hop
    |db now maxAge db' Hop
    |db now from to content m db' Hop
    |db now mid db' Hop
    |db].
  - unfold AddFact in Hop. opened Hop. numbered Hop nid Hnew.
    injection Hop as _ <-. split; [exists m0 |]; auto.
  - unfold DeleteFact in Hop. opened Hop.
    injection Hop as <-. split; [exists m0 |]; auto.
  - unfold RegisterInstance in Hop. opened Hop.
    injection Hop as <-. split; [exists m0 |]; auto.
  - unfold Heartbeat in Hop. opened Hop.
    injection Hop as <-. split; [exists m0 |]; auto.
  - unfold UnregisterInstance in Hop. opened Hop.
    injection Hop as <-. split; [exists m0 |]; auto.
  - unfold CleanupStaleInstances in Hop. opened Hop.
    injection Hop as <-. split; [exists m0 |]; auto.
  - (* a new message: its id is above every id of the table *)
    unfold SendMessage in Hop. opened Hop. numbered Hop nid Hnew.
    injection Hop as <- <-. cbn [messages set_messages]. split.
    + exists m0. split; [| exact Hid0]. apply elem_of_app. now left.
    + intros m Hin Hid. apply elem_of_app in Hin as [Hin | Hin].
      * now apply Hread.
      * apply list_elem_of_singleton in Hin. subst m. cbn in Hid.
        assert (Hlt : Message.ID m0 < nid).
        { apply (autoincrement_fresh _ _ _ Hnew).
          apply list_elem_of_fmap. now exists m0. }
        lia.
  - (* marking sets a timestamp and clears none *)
    unfold MarkMessageRead in Hop. opened Hop.
    injection Hop as <-. cbn [messages set_messages]. split.
    + exists (if Message.ID m0 =? mid then Message.set_ReadAt m0 now else m0).
      split.
      * apply list_elem_of_fmap. now exists m0.
      * now destruct (Message.ID m0 =? mid).
    + intros m Hin Hid. apply list_elem_of_fmap in Hin as [m1 [-> Hin1]].
      destruct (Message.ID m1 =? mid); [discriminate |].
      now apply Hread.
  - split; [exists m0 |]; auto.
Qed.

Lemma evolves_settled (id : Z) (db db' : DB) :
  evolves db db' -> settled id db -> settled id db'.
Proof.
  intros Hev. induction Hev as [|db db1 db2 Hstep _ IH]; [auto |].
  intros Hs. apply IH. exact (step_settled id db db1 Hstep Hs).
Qed.

Lemma GetMessages_subset (db : DB) (to : string) (unreadOnly : bool)
    (msgs : list Message.t) (m : Message.t) :
  GetMessages db to unreadOnly = Ok msgs -> m ∈ msgs ->
  m ∈ messages db /\ Message.ToInstance m = to /\
  (unreadOnly = true -> Message.ReadAt m = None).
Proof.
  unfold GetMessages. destruct (connection db); [| discriminate].
  cbn [mbind result_bind]. intros [= <-] Hin.
  rewrite order_by_asc_Permutation in Hin.
  apply list_elem_of_In, filter_In in Hin as [Hin Hp].
  apply list_elem_of_In in Hin.
  apply andb_prop in Hp as [Hto Hunread].
  apply String.eqb_eq in Hto. repeat split; auto.
  intros ->. cbn in Hunread. unfold unread in Hunread.
  now destruct (Message.ReadAt m).
Qed.

Lemma settled_not_found_unread (id : Z) (db : DB) (s : Server)
    (args : gmap string JSON) :
  settled id db -> ~ finds_unread db s args id.
Proof.
  intros [_ Hread] (msgs & m & Hget & Hin & Hid & Hnone).
  destruct (GetMessages_subset _ _ _ _ _ Hget Hin) as [Hrow _].
  exact (Hread m Hrow Hid Hnone).
Qed.

Section ReadOnce.

Context `{TimeFormat}.

Lemma mark_returned_cons (now : Time) (m : Message.t)
    (returned : list Message.t) (row : Message.t) :
  mark_returned now returned
    (if unread m && (Message.ID m =? Message.ID row)
     then Message.set_ReadAt row now else row)
  = mark_returned now (m :: returned) row.
Proof.
  unfold mark_returned. cbn [existsb].
  destruct (unread m && (Message.ID m =? Message.ID row)); cbn [orb].
  - cbn [Message.ID Message.set_ReadAt].
    now destruct (existsb _ returned).
  - reflexivity.
Qed.

(** The database after the loop over the returned messages. *)
Lemma showMessage_loop (now : Time) (msgs : list Message.t) (sb : string)
    (db : DB) :
  closed db = false ->
  snd (fold_left (showMessage now) msgs (sb, db))
  = set_messages db (map (mark_returned now msgs) (messages db))
      (messages_seq db).
Proof.
  revert sb db. induction msgs as [|m msgs IH]; intros sb db Hopen.
  - cbn [fold_left snd]. unfold mark_returned. cbn [existsb].
    rewrite map_id. symmetry. apply set_messages_same.
  - cbn [fold_left]. unfold showMessage at 2.
    unfold MarkMessageRead. rewrite (connection_open db Hopen).
    cbn [mbind result_bind].
    set (db1 := set_messages db
                  (map (fun row => if Message.ID row =? Message.ID m
                                   then Message.set_ReadAt row now else row)
                     (messages db)) (messages_seq db)).
    assert (Hdb1 : match Message.ReadAt m with
                   | Some _ => db
                   | None => db1
                   end
                   = set_messages db
                       (map (fun row => if unread m && (Message.ID m =? Message.ID row)
                                        then Message.set_ReadAt row now else row)
                          (messages db)) (messages_seq db)).
    { unfold unread, db1. destruct (Message.ReadAt m); cbn [andb].
      - rewrite map_id. symmetry. apply set_messages_same.
      - f_equal. apply map_ext. intros row.
        now rewrite (Z.eqb_sym (Message.ID m)). }
    rewrite Hdb1. rewrite IH by exact Hopen.
    cbn [set_messages messages messages_seq facts facts_seq instances closed].
    f_equal. rewrite map_map. apply map_ext. intros row.
    apply mark_returned_cons.
Qed.

Lemma showMessage_loop_evolves (now : Time) (msgs : list Message.t)
    (sb : string) (db : DB) :
  evolves db (snd (fold_left (showMessage now) msgs (sb, db))).
Proof.
  revert sb db. induction msgs as [|m msgs IH]; intros sb db.
  - apply rtc_refl.
  - cbn [fold_left]. unfold showMessage at 2.
    destruct (Message.ReadAt m); [apply IH |].
    destruct (MarkMessageRead db now (Message.ID m)) as [db1|] eqn:Hmark;
      [| apply IH].
    eapply rtc_l; [| apply IH].
    exact (step_MarkMessageRead db now (Message.ID m) db1 Hmark).
Qed.

Lemma toolGetMessages_db (s : Server) (now : Time) (args : gmap string JSON)
    (db : DB) :
  snd (toolGetMessages s now args db)
  = match GetMessages db (instanceID s) (unreadOnlyArgument args) with
    | Ok msgs =>
        snd (fold_left (showMessage now) msgs
               ("Found " +:+ itoa (Z.of_nat (length msgs))
                +:+ " message(s):" +:+ nl +:+ nl, db))
    | Err _ => db
    end.
Proof.
  unfold toolGetMessages.
  destruct (GetMessages db (instanceID s) (unreadOnlyArgument args))
    as [msgs|err]; [| reflexivity].
  destruct msgs as [|m msgs].
  - cbn [length Nat.eqb]. now destruct (unreadOnlyArgument args).
  - cbn [length Nat.eqb].
    now destruct (fold_left (showMessage now) (m :: msgs) _).
Qed.

(** C5. [get_messages] asks for unread messages only unless [unread_only]
    is given as a boolean.  Every message it returns with no read
    timestamp is marked read at once: the rows of the returned unread
    messages get the read timestamp [now], the other rows stay as they
    are.  Hence, once a call has returned a message as unread, no later
    call returns it as unread again, whatever the processes sharing the
    database do to it through the store in between (the effect of
    [get_messages] itself is such a history). *)
Theorem get_messages_reads_once (s : Server) (now : Time)
    (args : gmap string JSON) (db : DB) :
  let db' := snd (toolGetMessages s now args db) in
  (as_bool (args !! "unread_only") = None ->
     unreadOnlyArgument args = true /\
     toolGetMessages s now args db
     = toolGetMessages s now (<["unread_only" := JBool true]> args) db)
  /\ (forall msgs,
         GetMessages db (instanceID s) (unreadOnlyArgument args) = Ok msgs ->
         messages db' = map (mark_returned now msgs) (messages db) /\
         (forall m row,
             m ∈ msgs -> Message.ReadAt m = None ->
             row ∈ messages db' -> Message.ID row = Message.ID m ->
             Message.ReadAt row = Some now))
  /\ (forall id,
         finds_unread db s args id ->
         forall db2, evolves db' db2 ->
         forall s2 args2, ~ finds_unread db2 s2 args2 id)
  /\ evolves db db'.
Proof.
  cbv zeta. split; [| split; [| split]].
  - intros Habsent.
    assert (Hdefault : unreadOnlyArgument args = true).
    { unfold unreadOnlyArgument. now rewrite Habsent. }
    split; [exact Hdefault |].
    unfold toolGetMessages. rewrite Hdefault.
    unfold unreadOnlyArgument. now rewrite lookup_insert_eq.
  - intros msgs Hget. rewrite toolGetMessages_db, Hget.
    assert (Hopen : closed db = false).
    { unfold GetMessages, connection in Hget.
      destruct (closed db); [discriminate | reflexivity]. }
    rewrite (showMessage_loop now msgs _ db Hopen).
    cbn [messages set_messages]. split; [reflexivity |].
    intros m row Hin Hnone Hrow Hid.
    apply list_elem_of_fmap in Hrow as [row0 [-> Hrow0]].
    unfold mark_returned in *.
    assert (Hex : existsb
                    (fun m' => unread m' && (Message.ID m' =? Message.ID row0))
                    msgs = true).
    { apply existsb_exists. exists m. split; [now apply list_elem_of_In |].
      unfold unread. rewrite Hnone. cbn [andb].
      destruct (existsb _ msgs); cbn in Hid; apply Z.eqb_eq; congruence. }
    now rewrite Hex.
  - intros id (msgs & m & Hget & Hin & Hid & Hnone) db2 Hev s2 args2.
    apply settled_not_found_unread. apply (evolves_settled id _ _ Hev).
    rewrite toolGetMessages_db, Hget.
    assert (Hopen : closed db = false).
    { unfold GetMessages, connection in Hget.
      destruct (closed db); [discriminate | reflexivity]. }
    rewrite (showMessage_loop now msgs _ db Hopen).
    destruct (GetMessages_subset _ _ _ _ _ Hget Hin) as [Hrow _].
    assert (Hmarked : forall row,
               Message.ID row = id ->
               mark_returned now msgs row = Message.set_ReadAt row now).
    { intros row Hrid. unfold mark_returned.
      assert (Hex : existsb
                      (fun m' => unread m' && (Message.ID m' =? Message.ID row))
                      msgs = true).
      { apply existsb_exists. exists m. split; [now apply list_elem_of_In |].
        unfold unread. rewrite Hnone. cbn [andb]. apply Z.eqb_eq. congruence. }
      now rewrite Hex. }
    split; cbn [messages set_messages].
    + exists (mark_returned now msgs m). split.
      * apply list_elem_of_fmap. now exists m.
      * rewrite (Hmarked m Hid). exact Hid.
    + intros row Hin' Hrid.
      apply list_elem_of_fmap in Hin' as [row0 [-> Hrow0]].
      assert (Hid0 : Message.ID row0 = id).
      { unfold mark_returned in Hrid. now destruct (existsb _ msgs). }
      now rewrite (Hmarked row0 Hid0).
  - rewrite toolGetMessages_db.
    destruct (GetMessages db (instanceID s) (unreadOnlyArgument args));
      [apply showMessage_loop_evolves | apply rtc_refl].
Qed.

End ReadOnce.

(** ** The request loop *)

Section Loop.

Context `{SearchEngine} `{TimeFormat} `{EnvelopeCodec}.

(** The loop handles the lines one after the other: running it on
    [before ++ after] is running it on [before] and going on with [after]
    from the writer and database reached. *)
Lemma Run_app (s : Server) (before after : list (Time * string))
    (ending : ReadEnd) (w : Writer) (db : DB) :
  Run s (before ++ after) ending w db
  = Run s after ending (snd (fst (Run s before EOF w db)))
      (snd (Run s before EOF w db)).
Proof.
  revert w db. induction before as [|[now line] before IH]; intros w db.
  - reflexivity.
  - cbn [app Run]. destruct (unmarshalRequest line) as [req|].
    + destruct (handleRequest s now w req db) as [w' db']. apply IH.
    + apply IH.
Qed.

(** What [Run] returns depends on how the input ends, not on the lines. *)
Lemma Run_returns (s : Server) (lines : list (Time * string))
    (ending : ReadEnd) (w : Writer) (db : DB) :
  fst (fst (Run s lines ending w db))
  = match ending with
    | EOF => None
    | ReadFailure err => Some ("read error: " +:+ err)
    end.
Proof.
  revert w db. induction lines as [|[now line] lines IH]; intros w db.
  - cbn [Run]. now destruct ending.
  - cbn [Run]. destruct (unmarshalRequest line) as [req|].
    + destruct (handleRequest s now w req db) as [w' db']. apply IH.
    + apply IH.
Qed.

(** C8. In the request loop: a line that does not decode as a request
    gets the response "Parse error" with code -32700 and a nil id, the
    database is not touched and the loop goes on with the next line; at
    the end of the input the loop returns nil; any other read error is
    returned, wrapped; a request whose method is none of the five known
    ones gets the response "Method not found" with code -32601 and its own
    id, and the loop goes on.  No line ends the loop: the value returned
    is decided by how the input ends, and the lines after any line are
    handled. *)
Theorem loop_reports_errors_and_continues (s : Server) (w : Writer) (db : DB) :
  (forall now line rest ending,
      unmarshalRequest line = None ->
      Run s ((now, line) :: rest) ending w db
      = Run s rest ending
          (w ++ [ {| Response.JSONRPC := "2.0"; Response.ID := JNull;
                     Response.Result := None;
                     Response.Error :=
                       Some {| Code := -32700; Message := "Parse error";
                               Data := JNull |} |} ])%list
          db)
  /\ Run s [] EOF w db = (None, w, db)
  /\ (forall err,
         Run s [] (ReadFailure err) w db
         = (Some ("read error: " +:+ err), w, db))
  /\ (forall now line rest ending req,
         unmarshalRequest line = Some req ->
         Request.Method req
           ∉ ["initialize"; "initialized"; "tools/list"; "tools/call"; "ping"] ->
         Run s ((now, line) :: rest) ending w db
         = Run s rest ending
             (w ++ [ {| Response.JSONRPC := "2.0";
                        Response.ID := Request.ID req;
                        Response.Result := None;
                        Response.Error :=
                          Some {| Code := -32601; Message := "Method not found";
                                  Data := JNull |} |} ])%list
             db)
  /\ (forall lines ending,
         fst (fst (Run s lines ending w db))
         = match ending with
           | EOF => None
           | ReadFailure err => Some ("read error: " +:+ err)
           end)
  /\ (forall before after ending,
         Run s (before ++ after) ending w db
         = Run s after ending (snd (fst (Run s before EOF w db)))
             (snd (Run s before EOF w db))).
Proof.
  split; [| split; [| split; [| split; [| split]]]].
  - intros now line rest ending Hbad. cbn [Run]. now rewrite Hbad.
  - reflexivity.
  - reflexivity.
  - intros now line rest ending req Hreq Hunknown. cbn [Run]. rewrite Hreq.
    unfold handleRequest.
    repeat match goal with
    | |- context [String.eqb (Request.Method req) ?name] =>
        destruct (String.eqb_spec (Request.Method req) name) as [Heq|_];
        [exfalso; apply Hunknown; rewrite Heq; set_solver |]
    end.
    reflexivity.
  - intros lines ending. apply Run_returns.
  - intros before after ending. apply Run_app.
Qed.

End Loop.

(** ** Tag filters *)













(** *** [LIKE] with a pattern [%literal%] *)






(** *** Where a quoted tag can occur in the serialised list *)













Section TagFilter.

Context `{SearchEngine}.

Lemma AddFact_inv (db0 : DB) (now : Time) (content : string)
    (tags : list string) (dir : string) (f : Fact.t) (db : DB) :
  AddFact db0 now content tags dir = Ok (f, db) ->
  closed db = false /\
  (forall r, r ∈ facts db0 -> row_id r < Fact.ID f) /\
  facts_seq db = Fact.ID f /\
  facts_seq db0 < Fact.ID f /\
  facts db = (facts db0 ++ [stored_row f])%list /\
  Fact.Content f = content /\ Fact.Tags f = tags /\ Fact.SourceDir f = dir.
Proof.
  unfold AddFact, connection. destruct (closed db0) eqn:Hopen; [discriminate |].
  cbn [mbind result_bind].
  destruct (autoincrement (facts_seq db0) (map row_id (facts db0)))
    as [id|] eqn:Hnew; [| discriminate].
  cbn [mbind result_bind]. intros [= <- <-].
  cbn [closed facts facts_seq set_facts Fact.ID Fact.Content Fact.Tags
       Fact.SourceDir].
  repeat split; auto.
  - intros r Hr. apply (autoincrement_fresh _ _ _ Hnew).
    apply list_elem_of_fmap. now exists r.
  - unfold autoincrement in Hnew.
    destruct (MaxInt64 <=? _); [discriminate |].
    injection Hnew as <-. lia.
Qed.

(** The row of a fact just added is the only one with its identifier. *)
Lemma AddFact_row_kept (db0 : DB) (now : Time) (content : string)
    (tags : list string) (dir : string) (f : Fact.t) (db : DB) :
  AddFact db0 now content tags dir = Ok (f, db) ->
  row_kept (stored_row f) db /\ stored_row f ∈ facts db.
Proof.
  intros Hadd.
  destruct (AddFact_inv _ _ _ _ _ _ _ Hadd)
    as (_ & Hfresh & Hseq & _ & Hfacts & _).
  split; [split |].
  - cbn [stored_row row_id]. lia.
  - intros r Hr Hid. rewrite Hfacts in Hr.
    apply elem_of_app in Hr as [Hr | Hr].
    + specialize (Hfresh r Hr). cbn [stored_row row_id] in Hid. lia.
    + now apply list_elem_of_singleton in Hr.
  - rewrite Hfacts. apply elem_of_app. right. apply list_elem_of_here.
Qed.

(** Identifiers are not given out twice and rows are not rewritten. *)
Lemma step_row_kept (row : FactRow) (db db' : DB) :
  step db db' -> row_kept row db -> row_kept row db'.
Proof.
  intros Hstep [Hseq Huniq].
  destruct Hstep as
    [db now content tags sourceDir f db' Hop
    |db fid db' Hop
    |db now iid pid directory db' Hop
    |db now iid db' Hop
    |db iid db' Hop
    |db now maxAge db' Hop
    |db now from to content m db' Hop
    |db now mid db' Hop
    |db].
  - destruct (AddFact_inv _ _ _ _ _ _ _ Hop)
      as (_ & _ & Hseq' & Hlt & Hfacts & _).
    split; [lia |]. intros r Hr Hid. rewrite Hfacts in Hr.
    apply elem_of_app in Hr as [Hr | Hr]; [now apply Huniq |].
    apply list_elem_of_singleton in Hr. subst r.
    cbn [stored_row row_id] in Hid. lia.
  - unfold DeleteFact in Hop. opened Hop. injection Hop as <-.
    split; [exact Hseq |]. cbn [facts set_facts]. intros r Hr Hid.
    apply list_elem_of_In, filter_In in Hr as [Hr _].
    apply Huniq; [now apply list_elem_of_In | exact Hid].
  - unfold RegisterInstance in Hop. opened Hop. injection Hop as <-.
    split; auto.
  - unfold Heartbeat in Hop. opened Hop. injection Hop as <-. split; auto.
  - unfold UnregisterInstance in Hop. opened Hop. injection Hop as <-.
    split; auto.
  - unfold CleanupStaleInstances in Hop. opened Hop. injection Hop as <-.
    split; auto.
  - unfold SendMessage in Hop. opened Hop. numbered Hop nid Hnew.
    injection Hop as _ <-. split; auto.
  - unfold MarkMessageRead in Hop. opened Hop. injection Hop as <-.
    split; auto.
  - split; auto.
Qed.

Lemma evolves_row_kept (row : FactRow) (db db' : DB) :
  evolves db db' -> row_kept row db -> row_kept row db'.
Proof.
  intros Hev. induction Hev as [|db db1 db2 Hstep _ IH]; [auto |].
  intros Hk. apply IH. exact (step_row_kept row db db1 Hstep Hk).
Qed.



End TagFilter.


(** * Part III: the properties at concrete inputs *)





Lemma send_message_checks_recipient_witness :
  let args : gmap string JSON :=
    {[ "to" := JString "ghost"; "content" := JString "hi" ]} in
  closed empty_db = false /\
  fst (toolSendMessage me 7 args empty_db)
  = errorResult "instance 'ghost' not found" /\
  snd (toolSendMessage me 7 args empty_db) = empty_db.
Proof.
  intros args.
  split; [reflexivity |].
  destruct (send_message_checks_recipient me 7 args empty_db) as [_ Hmissing].
  assert (Hto : args !! "to" = Some (JString "ghost")) by reflexivity.
  assert (Hcontent : args !! "content" = Some (JString "hi")) by reflexivity.
  assert (Hnone : forall i, i ∈ instances empty_db -> Instance.ID i <> "ghost").
  { intros i Hi. inversion Hi. }
  destruct (Hmissing "ghost" "hi" Hto ltac:(discriminate) Hcontent
              ltac:(discriminate) eq_refl Hnone) as (Hresult & _ & Hdb).
  split; [exact Hresult | exact Hdb].
Defined.

Lemma get_messages_reads_once_witness :
  finds_unread inbox me ∅ 1 /\
  ~ finds_unread (snd (@toolGetMessages numeric_clock me 9 ∅ inbox)) me ∅ 1.
Proof.
  assert (Hfound : finds_unread inbox me ∅ 1).
  { exists [hello], hello. split; [reflexivity |].
    split; [apply list_elem_of_here |]. split; reflexivity. }
  split; [exact Hfound |].
  destruct (@get_messages_reads_once numeric_clock me 9 ∅ inbox)
    as (_ & _ & Honce & _).
  exact (Honce 1 Hfound _ (rtc_refl _ _) me ∅).
Defined.

Lemma loop_reports_errors_and_continues_witness :
  @unmarshalRequest method_codec "not json" = None /\
  @Run byte_engine numeric_clock method_codec me
    [(1, "not json"); (2, method_line "ping")] EOF [] empty_db
  = @Run byte_engine numeric_clock method_codec me
      [(2, method_line "ping")] EOF
      [ {| Response.JSONRPC := "2.0"; Response.ID := JNull;
           Response.Result := None;
           Response.Error :=
             Some {| Code := -32700; Message := "Parse error";
                     Data := JNull |} |} ]
      empty_db.
Proof.
  assert (Hbad : @unmarshalRequest method_codec "not json" = None)
    by reflexivity.
  split; [exact Hbad |].
  destruct (@loop_reports_errors_and_continues byte_engine numeric_clock
              method_codec me [] empty_db) as (Hparse & _).
  exact (Hparse 1 "not json" [(2, method_line "ping")] EOF Hbad).
Defined.



(** * Part IV: the repository's tests on the model

    The cases of [sqlite_test.go] and [tools_test.go] that do not depend on
    the search engine or on the wall clock, evaluated. *)

Section RepositoryTests.

#[local] Existing Instance byte_engine.
#[local] Existing Instance numeric_clock.

(** [TestSanitizeFTSQuery]. *)
Example test_sanitize_simple :
  sanitizeFTSQuery "simple" = str1 dquote +:+ "simple" +:+ str1 dquote.
Proof. reflexivity. Qed.

Example test_sanitize_spaces :
  sanitizeFTSQuery "with spaces"
  = str1 dquote +:+ "with spaces" +:+ str1 dquote.
Proof. reflexivity. Qed.

Example test_sanitize_quotes :
  sanitizeFTSQuery ("with " +:+ str1 dquote +:+ "quotes" +:+ str1 dquote)
  = str1 dquote +:+ "with " +:+ str1 dquote +:+ str1 dquote +:+ "quotes"
    +:+ str1 dquote +:+ str1 dquote +:+ str1 dquote.
Proof. reflexivity. Qed.

Example test_sanitize_operators :
  sanitizeFTSQuery "OR AND NOT" = str1 dquote +:+ "OR AND NOT" +:+ str1 dquote.
Proof. reflexivity. Qed.

Example test_sanitize_star :
  sanitizeFTSQuery "test*" = str1 dquote +:+ "test*" +:+ str1 dquote.
Proof. reflexivity. Qed.

(** [TestTruncate]. *)
Example test_truncate :
  truncate "short" 10 = "short" /\
  truncate "exactly10!" 10 = "exactly10!" /\
  truncate "this is a longer string" 10 = "this is..." /\
  truncate "abc" 10 = "abc" /\
  truncate "longer text here" 10 = "longer ...".
Proof. repeat split. Qed.

(** [TestAddFact] and [TestAddFact_WithTags]. *)
Example test_AddFact :
  exists f db,
    AddFact empty_db 0 "test fact content" [] "/test/dir" = Ok (f, db) /\
    Fact.ID f <> 0 /\ Fact.Content f = "test fact content" /\
    Fact.SourceDir f = "/test/dir" /\ length (Fact.Tags f) = 0%nat.
Proof. eexists _, _. split; [reflexivity |]. repeat split. discriminate. Qed.

(** [TestGetFacts_ByDirectory]. *)
Example test_GetFacts_ByDirectory :
  let db := added (added (added empty_db 1 "fact in project1" [] "/project1")
                     2 "fact in project2" [] "/project2")
              3 "another fact in project1" [] "/project1" in
  exists facts,
    GetFacts db EmptyString [] "/project1" 10 = Ok facts /\
    length facts = 2%nat.
Proof. eexists. split; reflexivity. Qed.

(** [TestGetFacts_ByTags]. *)
Example test_GetFacts_ByTags :
  let db := added (added (added empty_db 1 "architectural decision"
                            ["architecture"] "/project")
                     2 "bug fix note" ["bugfix"] "/project")
              3 "another arch note" ["architecture"; "important"] "/project" in
  exists facts,
    GetFacts db EmptyString ["architecture"] EmptyString 10 = Ok facts /\
    map Fact.Content facts = ["another arch note"; "architectural decision"].
Proof. eexists. split; reflexivity. Qed.

(** [TestGetFacts_LimitBounds]. *)
Example test_GetFacts_LimitBounds :
  let db := added_times 150 empty_db "test fact" "/project" in
  (exists facts, GetFacts db EmptyString [] EmptyString 0 = Ok facts /\
                 Z.of_nat (length facts) = DefaultLimit) /\
  (exists facts, GetFacts db EmptyString [] EmptyString 50 = Ok facts /\
                 length facts = 50%nat) /\
  (exists facts, GetFacts db EmptyString [] EmptyString 5000 = Ok facts /\
                 Z.of_nat (length facts) <= MaxLimit).
Proof.
  cbv zeta. repeat split.
  - eexists. split; [vm_compute; reflexivity | reflexivity].
  - eexists. split; [vm_compute; reflexivity | reflexivity].
  - eexists. split; [vm_compute; reflexivity | vm_compute; discriminate].
Qed.

(** [TestGetFactByID] and [TestDeleteFact]. *)
Example test_GetFactByID :
  let db := added empty_db 1 "findable fact" ["test"] "/dir" in
  (exists f, GetFactByID db 1 = Ok (Some f) /\
             Fact.Content f = "findable fact" /\ Fact.Tags f = ["test"]) /\
  GetFactByID db 99999 = Ok None /\
  (exists db', DeleteFact db 1 = Ok db' /\ GetFactByID db' 1 = Ok None).
Proof.
  cbv zeta. repeat split.
  - eexists. split; [reflexivity | split; reflexivity].
  - eexists. split; reflexivity.
Qed.

(** [TestInstance_Cleanup]: the instance last heard of ten minutes ago goes,
    the one just registered stays. *)
Example test_Instance_Cleanup :
  let now := 20 * minute in
  let db := {| facts := []; facts_seq := 0;
               instances :=
                 [ {| Instance.ID := "old-instance"; Instance.PID := 111;
                      Instance.Directory := "/old";
                      Instance.StartedAt := now;
                      Instance.LastHeartbeat := now - 10 * minute |};
                   {| Instance.ID := "new-instance"; Instance.PID := 222;
                      Instance.Directory := "/new";
                      Instance.StartedAt := now;
                      Instance.LastHeartbeat := now |} ];
               messages := []; messages_seq := 0; closed := false |} in
  exists db',
    CleanupStaleInstances db now (5 * minute) = Ok db' /\
    GetInstance db' "old-instance" = Ok None /\
    (exists i, GetInstance db' "new-instance" = Ok (Some i)).
Proof.
  eexists. split; [reflexivity |]. split; [reflexivity |].
  eexists. reflexivity.
Qed.

(** [TestMessage_SendAndReceive] and [TestMessage_MarkRead]. *)
Example test_Message_MarkRead :
  let db := sent (registered (registered empty_db 1 "sender" 1 "/sender")
                    2 "receiver" 2 "/receiver")
              3 "sender" "receiver" "test message" in
  (exists m, GetMessages db "receiver" true = Ok [m] /\
             Message.ReadAt m = None) /\
  exists db',
    MarkMessageRead db 4 1 = Ok db' /\
    GetMessages db' "receiver" true = Ok [] /\
    (exists m, GetMessages db' "receiver" false = Ok [m] /\
               Message.ReadAt m <> None).
Proof.
  cbv zeta. split.
  - eexists. split; reflexivity.
  - eexists. split; [reflexivity |]. split; [reflexivity |].
    eexists. split; [reflexivity | discriminate].
Qed.

(** [TestToolRemember_EmptyFact] and [TestToolRemember_MissingFact]. *)
Example test_toolRemember_no_fact :
  fst (toolRemember test_server 1 {[ "fact" := JString EmptyString ]} empty_db)
  = errorResult "fact is required" /\
  fst (toolRemember test_server 1 ∅ empty_db) = errorResult "fact is required".
Proof. split; reflexivity. Qed.

(** [TestToolSendMessage_Valid] and [TestToolSendMessage_InvalidInstance]. *)
Example test_toolSendMessage :
  let args (to : string) : gmap string JSON :=
    {[ "to" := JString to; "content" := JString "hello!" ]} in
  fst (toolSendMessage test_server 2 (args "target-instance")
         (registered empty_db 1 "target-instance" 123 "/target"))
  = textResult "Message #1 sent to target-instance" /\
  fst (toolSendMessage test_server 2 (args "nonexistent-instance") empty_db)
  = errorResult "instance 'nonexistent-instance' not found".
Proof. split; reflexivity. Qed.

(** [TestToolGetMessages_NoMessages] and [TestToolGetMessages_MarksAsRead]. *)
Example test_toolGetMessages_MarksAsRead :
  let db := sent (registered (registered empty_db 1 "test-instance" 1 "/test")
                    2 "sender" 2 "/sender")
              3 "sender" "test-instance" "test message" in
  fst (toolGetMessages test_server 4 ∅ empty_db)
  = textResult "No unread messages." /\
  IsError (fst (toolGetMessages test_server 4 ∅ db)) = false /\
  fst (toolGetMessages test_server 5 {[ "unread_only" := JBool true ]}
         (snd (toolGetMessages test_server 4 ∅ db)))
  = textResult "No unread messages.".
Proof. repeat split. Qed.

(** [TestToolListInstances_NoInstances]. *)
Example test_toolListInstances_none :
  fst (toolListInstances test_server 1 ∅ empty_db)
  = textResult "No other running instances found.".
Proof. reflexivity. Qed.

(** [TestToolGetContext_Empty]. *)
Example test_toolGetContext_empty :
  IsError (toolGetContext test_server ∅ empty_db) = false /\
  contains "No stored context yet"
    (Join (Text <$> Content (toolGetContext test_server ∅ empty_db))
       EmptyString) = true.
Proof. split; reflexivity. Qed.

End RepositoryTests.

(** * Part V: further properties of the store *)

(** ** Tags survive the column *)

Lemma string_body_escape_byte (c : ascii) (fuel : nat) (rest : string) :
  TagsJSON.string_body (S fuel) (TagsJSON.escape_byte c +:+ rest)
  = TagsJSON.prepend (str1 c) (TagsJSON.string_body fuel rest).
Proof.
  destruct c as [b0 b1 b2 b3 b4 b5 b6 b7].
  destruct b0, b1, b2, b3, b4, b5, b6, b7; reflexivity.
Qed.

Lemma string_body_escape (t : string) (fuel : nat) (rest : string) :
  (String.length t < fuel)%nat ->
  TagsJSON.string_body fuel (TagsJSON.escape t +:+ String dquote rest)
  = Some (t, rest).
Proof.
  revert fuel. induction t as [|c t IH]; intros fuel Hfuel.
  - destruct fuel as [|fuel]; [cbn in Hfuel; lia | reflexivity].
  - destruct fuel as [|fuel]; [cbn in Hfuel; lia |].
    cbn [TagsJSON.escape]. rewrite append_assoc, string_body_escape_byte.
    rewrite IH by (cbn in Hfuel; lia). reflexivity.
Qed.

Lemma length_escape (t : string) :
  (String.length t <= String.length (TagsJSON.escape t))%nat.
Proof.
  induction t as [|c t IH]; [reflexivity |].
  cbn [TagsJSON.escape String.length]. rewrite length_append.
  assert (1 <= String.length (TagsJSON.escape_byte c))%nat.
  { destruct c as [b0 b1 b2 b3 b4 b5 b6 b7].
    destruct b0, b1, b2, b3, b4, b5, b6, b7; vm_compute; lia. }
  lia.
Qed.

Lemma quote_append (t rest : string) :
  TagsJSON.quote t +:+ rest
  = String dquote (TagsJSON.escape t +:+ String dquote rest).
Proof. unfold TagsJSON.quote. now rewrite !append_assoc. Qed.

Lemma skip_ws_dquote (rest : string) :
  TagsJSON.skip_ws (String dquote rest) = String dquote rest.
Proof. reflexivity. Qed.

Lemma element_quote (t rest : string) :
  TagsJSON.element (String dquote (TagsJSON.escape t +:+ String dquote rest))
  = Some (t, rest).
Proof.
  cbn [TagsJSON.element]. rewrite Ascii.eqb_refl.
  apply string_body_escape.
  rewrite length_append. pose proof (length_escape t). lia.
Qed.

Lemma elements_tags_tail (ts : list string) (fuel : nat) :
  (length ts < fuel)%nat ->
  TagsJSON.elements fuel (tags_tail ts) = Some (ts, EmptyString).
Proof.
  revert fuel. induction ts as [|t ts IH]; intros fuel Hfuel.
  - destruct fuel as [|fuel]; [cbn in Hfuel; lia | reflexivity].
  - destruct fuel as [|fuel]; [cbn in Hfuel; lia |].
    cbn [tags_tail]. rewrite quote_append.
    change ("," +:+ ?x) with (String ","%char x).
    cbn [TagsJSON.elements TagsJSON.skip_ws].
    change (TagsJSON.is_ws ",") with false. cbv iota.
    rewrite skip_ws_dquote, (element_quote t (tags_tail ts)).
    rewrite IH by (cbn in Hfuel; lia). reflexivity.
Qed.

Lemma length_tags_tail (ts : list string) :
  (length ts < String.length (tags_tail ts))%nat.
Proof.
  induction ts as [|t ts IH]; [cbn; lia |].
  cbn [tags_tail length]. rewrite !length_append. cbn [String.length]. lia.
Qed.

Lemma Marshal_cons (t : string) (ts : list string) :
  TagsJSON.Marshal (t :: ts)
  = String "["%char (TagsJSON.quote t +:+ tags_tail ts).
Proof.
  unfold TagsJSON.Marshal. change ("[" +:+ ?x) with (String "["%char x).
  f_equal. revert t. induction ts as [|t2 ts IH]; intros t.
  - reflexivity.
  - change (Join (map TagsJSON.quote (t :: t2 :: ts)) ",")
      with (TagsJSON.quote t +:+ "," +:+ Join (map TagsJSON.quote (t2 :: ts)) ",").
    rewrite !append_assoc. rewrite (IH t2). reflexivity.
Qed.

Lemma Unmarshal_array (body : string) :
  TagsJSON.Unmarshal (String "["%char (String dquote body))
  = match TagsJSON.element (String dquote body) with
    | Some (e, rest) =>
        match TagsJSON.elements (S (String.length rest)) rest with
        | Some (es, rest') =>
            if is_empty (TagsJSON.skip_ws rest') then Some (e :: es) else None
        | None => None
        end
    | None => None
    end.
Proof. reflexivity. Qed.

(** Decoding the column written for a tag list gives the list back. *)
Lemma Unmarshal_Marshal (tags : list string) :
  TagsJSON.Unmarshal (TagsJSON.Marshal tags) = Some tags.
Proof.
  destruct tags as [|t ts]; [reflexivity |].
  rewrite Marshal_cons, quote_append, Unmarshal_array.
  rewrite (element_quote t (tags_tail ts)).
  rewrite elements_tags_tail by (pose proof (length_tags_tail ts); lia).
  reflexivity.
Qed.

Lemma scanFact_stored_row (f : Fact.t) : scanFact (stored_row f) = f.
Proof.
  unfold scanFact, stored_row. cbn [row_id row_content row_tags row_source_dir
    row_created_at row_updated_at].
  rewrite Unmarshal_Marshal. now destruct f.
Qed.

(** ** Facts *)

Lemma find_app_skip {A : Type} (p : A -> bool) (l1 l2 : list A) :
  (forall x, x ∈ l1 -> p x = false) ->
  List.find p (l1 ++ l2) = List.find p l2.
Proof.
  induction l1 as [|a l1 IH]; intros Hall; [reflexivity |].
  cbn [app List.find]. rewrite (Hall a) by apply list_elem_of_here.
  apply IH. intros x Hx. apply Hall. now apply list_elem_of_further.
Qed.

Lemma find_filter_out {A : Type} (p : A -> bool) (l : list A) :
  List.find p (List.filter (fun x => negb (p x)) l) = None.
Proof.
  apply find_none_iff. intros x Hx.
  apply list_elem_of_In, filter_In in Hx as [_ Hx].
  now apply negb_true_iff.
Qed.

Lemma find_filter_keep {A : Type} (p q : A -> bool) (l : list A) :
  (forall x, p x = true -> q x = true) ->
  List.find p (List.filter q l) = List.find p l.
Proof.
  intros Hpq. induction l as [|a l IH]; [reflexivity |].
  cbn [List.filter List.find]. destruct (p a) eqn:Hp.
  - rewrite (Hpq a Hp). cbn [List.find]. now rewrite Hp.
  - destruct (q a); [cbn [List.find]; rewrite Hp |]; exact IH.
Qed.

Lemma filter_all {A : Type} (q : A -> bool) (l : list A) :
  (forall x, x ∈ l -> q x = true) -> List.filter q l = l.
Proof.
  intros Hall. apply List.forallb_filter_id, forallb_forall.
  intros x Hx. apply Hall. now apply list_elem_of_In.
Qed.

Lemma set_facts_same (db : DB) : set_facts db (facts db) (facts_seq db) = db.
Proof. now destruct db. Qed.

Lemma set_instances_same (db : DB) : set_instances db (instances db) = db.
Proof. now destruct db. Qed.

(** X1. A fact added with ASCII tags is read back by its identifier as
    the very fact [AddFact] returned: the content, the tags in their order,
    the directory and both timestamps given at the insertion. *)
Theorem added_fact_is_read_back (db : DB) (now : Time) (content : string)
    (tags : list string) (sourceDir : string) (f : Fact.t) (db' : DB) :
  AddFact db now content tags sourceDir = Ok (f, db') ->
  Forall ascii_text tags ->
  GetFactByID db' (Fact.ID f) = Ok (Some f) /\
  Fact.Content f = content /\ Fact.Tags f = tags /\
  Fact.SourceDir f = sourceDir /\
  Fact.CreatedAt f = now /\ Fact.UpdatedAt f = now.
Proof.
  intros Hadd _.
  destruct (AddFact_inv _ _ _ _ _ _ _ Hadd)
    as (Hopen & Hfresh & _ & _ & Hfacts & Hc & Ht & Hd).
  split.
  - unfold GetFactByID. rewrite (connection_open db' Hopen).
    cbn [mbind result_bind]. rewrite Hfacts.
    rewrite find_app_skip.
    + cbn [List.find stored_row row_id]. rewrite Z.eqb_refl.
      cbn [fmap option_fmap option_map]. now rewrite scanFact_stored_row.
    + intros r Hr. apply Z.eqb_neq. specialize (Hfresh r Hr). lia.
  - repeat split; auto.
    + unfold AddFact in Hadd. opened Hadd. numbered Hadd nid Hnew.
      now injection Hadd as <- _.
    + unfold AddFact in Hadd. opened Hadd. numbered Hadd nid Hnew.
      now injection Hadd as <- _.
Qed.

(** X2. Stored facts do not change.  At any later point of the history
    of the database, on an open store, looking up the identifier of a fact
    that was added gives either nothing (the fact was deleted) or the fact
    exactly as it was added; the identifier never comes to denote another
    fact. *)
Theorem stored_fact_is_immutable (db0 : DB) (now : Time) (content : string)
    (tags : list string) (sourceDir : string) (f : Fact.t) (db1 db : DB) :
  AddFact db0 now content tags sourceDir = Ok (f, db1) ->
  Forall ascii_text tags ->
  evolves db1 db ->
  closed db = false ->
  GetFactByID db (Fact.ID f) = Ok None \/
  GetFactByID db (Fact.ID f) = Ok (Some f).
Proof.
  intros Hadd _ Hev Hopen.
  destruct (AddFact_row_kept _ _ _ _ _ _ _ Hadd) as [Hkept _].
  destruct (evolves_row_kept _ _ _ Hev Hkept) as [_ Huniq].
  unfold GetFactByID. rewrite (connection_open db Hopen).
  cbn [mbind result_bind].
  destruct (List.find (fun r => row_id r =? Fact.ID f) (facts db))
    as [r|] eqn:Hfind; [right | left; reflexivity].
  apply List.find_some in Hfind as [Hin Hid].
  apply list_elem_of_In in Hin. apply Z.eqb_eq in Hid.
  rewrite (Huniq r Hin Hid). cbn [fmap option_fmap option_map].
  now rewrite scanFact_stored_row.
Qed.

(** X3. [DeleteFact] on an open store never fails.  Afterwards the
    identifier is absent, every other identifier is looked up as before,
    and deleting again changes nothing; deleting an identifier that no row
    has leaves the database as it was. *)
Theorem delete_fact_is_idempotent (db : DB) (id : Z) :
  closed db = false ->
  exists db',
    DeleteFact db id = Ok db' /\
    GetFactByID db' id = Ok None /\
    (forall id', id' <> id -> GetFactByID db' id' = GetFactByID db id') /\
    DeleteFact db' id = Ok db' /\
    ((forall r, r ∈ facts db -> row_id r <> id) -> db' = db) /\
    instances db' = instances db /\ messages db' = messages db.
Proof.
  intros Hopen. unfold DeleteFact.
  rewrite (connection_open db Hopen). cbn [mbind result_bind].
  eexists. split; [reflexivity |].
  set (db' := set_facts db _ _).
  assert (Hopen' : closed db' = false) by exact Hopen.
  split; [| split; [| split; [| split; [| split; reflexivity]]]].
  - unfold GetFactByID. rewrite (connection_open db' Hopen').
    cbn [mbind result_bind]. unfold db'. cbn [facts set_facts].
    now rewrite (find_filter_out (fun r => row_id r =? id)).
  - intros id' Hne. unfold GetFactByID.
    rewrite (connection_open db' Hopen'), (connection_open db Hopen).
    cbn [mbind result_bind]. unfold db'. cbn [facts set_facts].
    rewrite find_filter_keep; [reflexivity |].
    intros r Hr. apply Z.eqb_eq in Hr. apply negb_true_iff, Z.eqb_neq. lia.
  - rewrite (connection_open db' Hopen'). cbn [mbind result_bind].
    unfold db'. cbn [facts facts_seq set_facts]. f_equal. f_equal.
    apply filter_all. intros r Hr.
    now apply list_elem_of_In, filter_In in Hr as [_ Hr].
  - intros Hnone. unfold db'. rewrite filter_all; [apply set_facts_same |].
    intros r Hr. apply negb_true_iff, Z.eqb_neq. now apply Hnone.
Qed.

Lemma step_seq_mono (db db' : DB) :
  step db db' ->
  facts_seq db <= facts_seq db' /\ messages_seq db <= messages_seq db'.
Proof.
  intros Hstep.
  destruct Hstep as
    [db now content tags sourceDir f db' Hop
    |db fid db' Hop
    |db now iid pid directory db' Hop
    |db now iid db' Hop
    |db iid db' Hop
    |db now maxAge db' Hop
    |db now from to content m db' Hop
    |db now mid db' Hop
    |db].
  - unfold AddFact in Hop. opened Hop. numbered Hop nid Hnew.
    injection Hop as _ <-. cbn. unfold autoincrement in Hnew.
    destruct (MaxInt64 <=? _); [discriminate |]. injection Hnew as <-. lia.
  - unfold DeleteFact in Hop. opened Hop. injection Hop as <-. cbn. lia.
  - unfold RegisterInstance in Hop. opened Hop. injection Hop as <-. cbn. lia.
  - unfold Heartbeat in Hop. opened Hop. injection Hop as <-. cbn. lia.
  - unfold UnregisterInstance in Hop. opened Hop. injection Hop as <-.
    cbn. lia.
  - unfold CleanupStaleInstances in Hop. opened Hop. injection Hop as <-.
    cbn. lia.
  - unfold SendMessage in Hop. opened Hop. numbered Hop nid Hnew.
    injection Hop as _ <-. cbn. unfold autoincrement in Hnew.
    destruct (MaxInt64 <=? _); [discriminate |]. injection Hnew as <-. lia.
  - unfold MarkMessageRead in Hop. opened Hop. injection Hop as <-. cbn. lia.
  - cbn. lia.
Qed.

Lemma evolves_seq_mono (db db' : DB) :
  evolves db db' ->
  facts_seq db <= facts_seq db' /\ messages_seq db <= messages_seq db'.
Proof.
  intros Hev. induction Hev as [|db db1 db2 Hstep _ IH]; [lia |].
  pose proof (step_seq_mono db db1 Hstep). lia.
Qed.

Lemma SendMessage_inv (db : DB) (now : Time) (from to content : string)
    (m : Message.t) (db' : DB) :
  SendMessage db now from to content = Ok (m, db') ->
  closed db = false /\ closed db' = false /\
  m = {| Message.ID := Message.ID m; Message.FromInstance := from;
         Message.ToInstance := to; Message.Content := content;
         Message.CreatedAt := now; Message.ReadAt := None |} /\
  messages db' = (messages db ++ [m])%list /\
  messages_seq db' = Message.ID m /\
  messages_seq db < Message.ID m /\
  (forall x, x ∈ messages db -> Message.ID x < Message.ID m) /\
  facts db' = facts db /\ instances db' = instances db.
Proof.
  unfold SendMessage, connection. destruct (closed db) eqn:Hopen; [discriminate |].
  cbn [mbind result_bind]. intros Hop. numbered Hop nid Hnew.
  injection Hop as <- <-. cbn. repeat split; auto.
  - unfold autoincrement in Hnew. destruct (MaxInt64 <=? _); [discriminate |].
    injection Hnew as <-. lia.
  - intros x Hx. apply (autoincrement_fresh _ _ _ Hnew).
    apply list_elem_of_fmap. now exists x.
Qed.

(** X4. Identifiers are never given out twice.  A fact added at any
    later point of the history gets an identifier above the one of a fact
    added before, also when the earlier fact has been deleted in between;
    the same holds for messages. *)
Theorem identifiers_are_never_reused (db0 db1 db2 db3 : DB) :
  (forall now content tags dir f now' content' tags' dir' f',
      AddFact db0 now content tags dir = Ok (f, db1) ->
      evolves db1 db2 ->
      AddFact db2 now' content' tags' dir' = Ok (f', db3) ->
      Fact.ID f < Fact.ID f')
  /\ (forall now from to content m now' from' to' content' m',
         SendMessage db0 now from to content = Ok (m, db1) ->
         evolves db1 db2 ->
         SendMessage db2 now' from' to' content' = Ok (m', db3) ->
         Message.ID m < Message.ID m').
Proof.
  split.
  - intros now content tags dir f now' content' tags' dir' f' Hadd Hev Hadd'.
    destruct (AddFact_inv _ _ _ _ _ _ _ Hadd) as (_ & _ & Hseq & _).
    destruct (AddFact_inv _ _ _ _ _ _ _ Hadd') as (_ & _ & _ & Hlt & _).
    pose proof (evolves_seq_mono _ _ Hev). lia.
  - intros now from to content m now' from' to' content' m' Hs Hev Hs'.
    destruct (SendMessage_inv _ _ _ _ _ _ _ Hs) as (_ & _ & _ & _ & Hseq & _).
    destruct (SendMessage_inv _ _ _ _ _ _ _ Hs')
      as (_ & _ & _ & _ & _ & Hlt & _).
    pose proof (evolves_seq_mono _ _ Hev). lia.
Qed.

(** ** Listings *)

#[global] Instance later_first_transitive {A : Type} (key : A -> Time) :
  Transitive (later_first key).
Proof. intros a b c. unfold later_first. lia. Qed.

#[global] Instance later_first_total {A : Type} (key : A -> Time) :
  Total (later_first key).
Proof. intros a b. unfold later_first. lia. Qed.

#[global] Instance earlier_first_transitive {A : Type} (key : A -> Time) :
  Transitive (earlier_first key).
Proof. intros a b c. unfold earlier_first. lia. Qed.

#[global] Instance earlier_first_total {A : Type} (key : A -> Time) :
  Total (earlier_first key).
Proof. intros a b. unfold earlier_first. lia. Qed.




Lemma elem_of_order_by_asc {A : Type} (key : A -> Time) (l : list A) (x : A) :
  x ∈ order_by_asc key l <-> x ∈ l.
Proof. now rewrite order_by_asc_Permutation. Qed.

Lemma elem_of_filter_bool {A : Type} (p : A -> bool) (l : list A) (x : A) :
  x ∈ List.filter p l <-> x ∈ l /\ p x = true.
Proof. rewrite !list_elem_of_In. apply filter_In. Qed.

Section Listing.

Context `{SearchEngine}.


End Listing.

(** ** Instances *)

Lemma find_app_or {A : Type} (p : A -> bool) (l1 l2 : list A) :
  List.find p (l1 ++ l2)
  = match List.find p l1 with
    | Some x => Some x
    | None => List.find p l2
    end.
Proof.
  induction l1 as [|a l1 IH]; [reflexivity |].
  cbn [app List.find]. now destruct (p a).
Qed.

Lemma find_map_same {A : Type} (p : A -> bool) (g : A -> A) (l : list A) :
  (forall x, p (g x) = p x) ->
  List.find p (map g l) = option_map g (List.find p l).
Proof.
  intros Hp. induction l as [|a l IH]; [reflexivity |].
  cbn [map List.find]. rewrite Hp. now destruct (p a).
Qed.

Lemma map_unchanged {A : Type} (g : A -> A) (l : list A) :
  (forall x, x ∈ l -> g x = x) -> map g l = l.
Proof.
  induction l as [|a l IH]; intros Hall; [reflexivity |].
  cbn [map]. rewrite (Hall a) by apply list_elem_of_here.
  f_equal. apply IH. intros x Hx. apply Hall. now apply list_elem_of_further.
Qed.

(** X6. [RegisterInstance] on an open store replaces the row of the
    identifier: afterwards [GetInstance] finds the identifier with the given
    process and directory, started and last heard of now (an earlier start
    time is not kept), no other row has the identifier, and every other
    identifier is looked up as before. *)
Theorem register_instance_replaces (db : DB) (now : Time) (id : string)
    (pid : Z) (directory : string) :
  closed db = false ->
  let row := {| Instance.ID := id; Instance.PID := pid;
                Instance.Directory := directory;
                Instance.StartedAt := now; Instance.LastHeartbeat := now |} in
  exists db',
    RegisterInstance db now id pid directory = Ok db' /\
    GetInstance db' id = Ok (Some row) /\
    (forall i, i ∈ instances db' -> Instance.ID i = id -> i = row) /\
    (forall id', id' <> id -> GetInstance db' id' = GetInstance db id') /\
    (forall i, Instance.ID i <> id -> i ∈ instances db' <-> i ∈ instances db) /\
    facts db' = facts db /\ messages db' = messages db.
Proof.
  intros Hopen row. unfold RegisterInstance.
  rewrite (connection_open db Hopen). cbn [mbind result_bind].
  eexists. split; [reflexivity |].
  fold row. set (db' := set_instances db _).
  assert (Hopen' : closed db' = false) by exact Hopen.
  split; [| split; [| split; [| split; [| split; reflexivity]]]].
  - unfold GetInstance. rewrite (connection_open db' Hopen').
    cbn [mbind result_bind]. unfold db'. cbn [instances set_instances].
    rewrite find_app_skip.
    + cbn [List.find row Instance.ID]. now rewrite String.eqb_refl.
    + intros i Hi. apply elem_of_filter_bool in Hi as [_ Hi].
      now apply negb_true_iff in Hi.
  - intros i Hi Hid. unfold db' in Hi. cbn [instances set_instances] in Hi.
    apply elem_of_app in Hi as [Hi | Hi].
    + apply elem_of_filter_bool in Hi as [_ Hi].
      apply negb_true_iff, String.eqb_neq in Hi. contradiction.
    + now apply list_elem_of_singleton in Hi.
  - intros id' Hne. unfold GetInstance.
    rewrite (connection_open db' Hopen'), (connection_open db Hopen).
    cbn [mbind result_bind]. unfold db'. cbn [instances set_instances].
    rewrite find_app_or, find_filter_keep.
    + destruct (List.find _ (instances db)); [reflexivity |].
      cbn [List.find row Instance.ID].
      destruct (String.eqb_spec id id'); [congruence | reflexivity].
    + intros i Hi. apply String.eqb_eq in Hi.
      apply negb_true_iff, String.eqb_neq. congruence.
  - intros i Hne. unfold db'. cbn [instances set_instances].
    rewrite elem_of_app, elem_of_filter_bool, list_elem_of_singleton.
    split.
    + intros [[Hi _] | ->]; [exact Hi | now cbn in Hne].
    + intros Hi. left. split; [exact Hi |].
      now apply negb_true_iff, String.eqb_neq.
Qed.

(** X7. [Heartbeat] on an open store never fails and only moves the time
    an instance was last heard of: the instance of the identifier, if there
    is one, keeps its process, directory and start time; every other
    identifier is looked up as before.  A heartbeat for an identifier that
    is not registered (never was, or was cleaned up) leaves the database as
    it was: it does not register the instance again. *)
Theorem heartbeat_touches_one_instance (db : DB) (now : Time) (id : string) :
  closed db = false ->
  exists db',
    Heartbeat db now id = Ok db' /\
    (forall found,
        GetInstance db id = Ok found ->
        GetInstance db' id
        = Ok ((fun i => Instance.set_LastHeartbeat i now) <$> found)) /\
    (forall id', id' <> id -> GetInstance db' id' = GetInstance db id') /\
    ((forall i, i ∈ instances db -> Instance.ID i <> id) -> db' = db) /\
    map Instance.ID (instances db') = map Instance.ID (instances db) /\
    facts db' = facts db /\ messages db' = messages db.
Proof.
  intros Hopen. unfold Heartbeat.
  rewrite (connection_open db Hopen). cbn [mbind result_bind].
  eexists. split; [reflexivity |].
  set (touch := fun i : Instance.t =>
                  if String.eqb (Instance.ID i) id
                  then Instance.set_LastHeartbeat i now else i).
  set (db' := set_instances db _).
  assert (Hopen' : closed db' = false) by exact Hopen.
  assert (Hid : forall i, Instance.ID (touch i) = Instance.ID i).
  { intros i. unfold touch. now destruct (String.eqb (Instance.ID i) id). }
  split; [| split; [| split; [| split; [| split; reflexivity]]]].
  - intros found. unfold GetInstance.
    rewrite (connection_open db' Hopen'), (connection_open db Hopen).
    cbn [mbind result_bind]. intros Hfound. injection Hfound as <-.
    unfold db'. cbn [instances set_instances].
    rewrite find_map_same by (intros i; now rewrite Hid).
    destruct (List.find _ (instances db)) as [i|] eqn:Hfind; [| reflexivity].
    apply List.find_some in Hfind as [_ Hi].
    cbn. unfold touch. now rewrite Hi.
  - intros id' Hne. unfold GetInstance.
    rewrite (connection_open db' Hopen'), (connection_open db Hopen).
    cbn [mbind result_bind]. unfold db'. cbn [instances set_instances].
    rewrite find_map_same by (intros i; now rewrite Hid).
    destruct (List.find _ (instances db)) as [i|] eqn:Hfind; [| reflexivity].
    apply List.find_some in Hfind as [_ Hi]. apply String.eqb_eq in Hi.
    cbn. unfold touch.
    destruct (String.eqb_spec (Instance.ID i) id); [congruence | reflexivity].
  - intros Hnone. unfold db'. rewrite map_unchanged.
    + apply set_instances_same.
    + intros i Hi. unfold touch.
      destruct (String.eqb_spec (Instance.ID i) id); [| reflexivity].
      now destruct (Hnone i Hi).
  - unfold db'. cbn [instances set_instances].
    rewrite map_map. apply map_ext. exact Hid.
Qed.

(** X8. [UnregisterInstance] on an open store never fails.  Afterwards
    the identifier is not found, every other identifier is looked up as
    before, the messages sent to or by the instance are all kept, and
    unregistering again changes nothing. *)
Theorem unregister_instance_is_idempotent (db : DB) (id : string) :
  closed db = false ->
  exists db',
    UnregisterInstance db id = Ok db' /\
    GetInstance db' id = Ok None /\
    (forall id', id' <> id -> GetInstance db' id' = GetInstance db id') /\
    UnregisterInstance db' id = Ok db' /\
    ((forall i, i ∈ instances db -> Instance.ID i <> id) -> db' = db) /\
    facts db' = facts db /\ messages db' = messages db.
Proof.
  intros Hopen. unfold UnregisterInstance.
  rewrite (connection_open db Hopen). cbn [mbind result_bind].
  eexists. split; [reflexivity |].
  set (db' := set_instances db _).
  assert (Hopen' : closed db' = false) by exact Hopen.
  split; [| split; [| split; [| split; [| split; reflexivity]]]].
  - unfold GetInstance. rewrite (connection_open db' Hopen').
    cbn [mbind result_bind]. unfold db'. cbn [instances set_instances].
    now rewrite (find_filter_out (fun i => String.eqb (Instance.ID i) id)).
  - intros id' Hne. unfold GetInstance.
    rewrite (connection_open db' Hopen'), (connection_open db Hopen).
    cbn [mbind result_bind]. unfold db'. cbn [instances set_instances].
    rewrite find_filter_keep; [reflexivity |].
    intros i Hi. apply String.eqb_eq in Hi.
    apply negb_true_iff, String.eqb_neq. congruence.
  - rewrite (connection_open db' Hopen'). cbn [mbind result_bind].
    unfold db'. cbn [instances set_instances]. f_equal. f_equal.
    apply filter_all. intros i Hi.
    now apply elem_of_filter_bool in Hi as [_ Hi].
  - intros Hnone. unfold db'.
    rewrite filter_all; [apply set_instances_same |].
    intros i Hi. apply negb_true_iff, String.eqb_neq. now apply Hnone.
Qed.


(** ** Messages *)

Lemma SendMessage_open (db : DB) (now : Time) (from to content : string) :
  closed db = false ->
  Z.max (messages_seq db) (max_rowid (map Message.ID (messages db))) < MaxInt64 ->
  let m := {| Message.ID :=
                Z.max (messages_seq db)
                  (max_rowid (map Message.ID (messages db))) + 1;
              Message.FromInstance := from; Message.ToInstance := to;
              Message.Content := content; Message.CreatedAt := now;
              Message.ReadAt := None |} in
  SendMessage db now from to content
  = Ok (m, set_messages db (messages db ++ [m]) (Message.ID m)).
Proof.
  intros Hopen Hroom m. unfold SendMessage, autoincrement.
  rewrite (connection_open db Hopen). cbn [mbind result_bind].
  destruct (MaxInt64 <=? _) eqn:Hfull; [apply Z.leb_le in Hfull; lia |].
  reflexivity.
Qed.

Lemma GetMessages_open (db : DB) (to : string) (unreadOnly : bool) :
  closed db = false ->
  GetMessages db to unreadOnly
  = Ok (order_by_asc Message.CreatedAt
          (List.filter
             (fun m => String.eqb (Message.ToInstance m) to
                       && (negb unreadOnly || unread m))
             (messages db))).
Proof.
  intros Hopen. unfold GetMessages. now rewrite (connection_open db Hopen).
Qed.

(** X10. The store itself does not check the recipient of a message.  On
    an open store with identifiers left, [SendMessage] succeeds for any
    recipient, registered or not; the message is stored unread with the
    next identifier, [GetMessages] for the recipient lists it with or
    without the unread filter, and the listing of every other recipient is
    as before. *)
Theorem store_sends_to_any_recipient (db : DB) (now : Time)
    (from to content : string) :
  closed db = false ->
  Z.max (messages_seq db) (max_rowid (map Message.ID (messages db))) < MaxInt64 ->
  exists m db',
    SendMessage db now from to content = Ok (m, db') /\
    m = {| Message.ID :=
             Z.max (messages_seq db)
               (max_rowid (map Message.ID (messages db))) + 1;
           Message.FromInstance := from; Message.ToInstance := to;
           Message.Content := content; Message.CreatedAt := now;
           Message.ReadAt := None |} /\
    (forall unreadOnly,
        exists msgs, GetMessages db' to unreadOnly = Ok msgs /\ m ∈ msgs) /\
    (forall other unreadOnly,
        other <> to ->
        GetMessages db' other unreadOnly = GetMessages db other unreadOnly) /\
    instances db' = instances db /\ facts db' = facts db.
Proof.
  intros Hopen Hroom.
  pose proof (SendMessage_open db now from to content Hopen Hroom) as Hsend.
  cbv zeta in Hsend.
  set (m := {| Message.ID := _ |}) in *.
  exists m, (set_messages db (messages db ++ [m]) (Message.ID m)).
  set (db' := set_messages db _ _).
  assert (Hopen' : closed db' = false) by exact Hopen.
  split; [exact Hsend |]. split; [reflexivity |].
  split; [| split; [| split; reflexivity]].
  - intros unreadOnly. rewrite (GetMessages_open db' to unreadOnly Hopen').
    eexists. split; [reflexivity |].
    apply elem_of_order_by_asc, elem_of_filter_bool. split.
    + unfold db'. cbn [messages set_messages]. apply elem_of_app. right.
      apply list_elem_of_here.
    + cbn. rewrite String.eqb_refl. now destruct unreadOnly.
  - intros other unreadOnly Hne.
    rewrite (GetMessages_open db' other unreadOnly Hopen'),
      (GetMessages_open db other unreadOnly Hopen).
    unfold db'. cbn [messages set_messages].
    rewrite List.filter_app. cbn [List.filter m Message.ToInstance].
    destruct (String.eqb_spec to other); [congruence |].
    cbn [andb]. now rewrite app_nil_r.
Qed.


(** X12. [MarkMessageRead] on an open store never fails.  Afterwards
    every row with the identifier carries the new time of reading, also one
    that was read before; no unread listing shows the identifier; every
    other row is kept as it is and no row is added or removed.  An
    identifier that no row has leaves the database as it was. *)
Theorem mark_message_read_hides_it (db : DB) (now : Time) (id : Z) :
  closed db = false ->
  exists db',
    MarkMessageRead db now id = Ok db' /\
    (forall m, m ∈ messages db' -> Message.ID m = id ->
               Message.ReadAt m = Some now) /\
    (forall to msgs m,
        GetMessages db' to true = Ok msgs -> m ∈ msgs -> Message.ID m <> id) /\
    (forall m, Message.ID m <> id -> m ∈ messages db' <-> m ∈ messages db) /\
    (forall m, m ∈ messages db -> Message.ID m = id ->
               Message.set_ReadAt m now ∈ messages db') /\
    length (messages db') = length (messages db) /\
    ((forall m, m ∈ messages db -> Message.ID m <> id) -> db' = db) /\
    facts db' = facts db /\ instances db' = instances db.
Proof.
  intros Hopen. unfold MarkMessageRead.
  rewrite (connection_open db Hopen). cbn [mbind result_bind].
  eexists. split; [reflexivity |].
  set (mark := fun m : Message.t =>
                 if Message.ID m =? id then Message.set_ReadAt m now else m).
  set (db' := set_messages db _ _).
  assert (Hopen' : closed db' = false) by exact Hopen.
  assert (Hmsgs : messages db' = map mark (messages db)) by reflexivity.
  assert (Hread : forall m, m ∈ messages db' -> Message.ID m = id ->
                            Message.ReadAt m = Some now).
  { intros m Hm Hid. rewrite Hmsgs in Hm.
    apply list_elem_of_fmap in Hm as [x [-> Hx]]. unfold mark in *.
    destruct (Message.ID x =? id) eqn:Hx'; [reflexivity |].
    apply Z.eqb_neq in Hx'. contradiction. }
  split; [exact Hread |].
  split; [| split; [| split; [| split; [| split; [| split; reflexivity]]]]].
  - intros to msgs m Hget Hm Hid.
    rewrite (GetMessages_open db' to true Hopen') in Hget.
    injection Hget as <-.
    apply elem_of_order_by_asc, elem_of_filter_bool in Hm as [Hm Hun].
    apply andb_prop in Hun as [_ Hun]. cbn [negb orb] in Hun.
    unfold unread in Hun. now rewrite (Hread m Hm Hid) in Hun.
  - intros m Hne. rewrite Hmsgs. split.
    + intros Hm. apply list_elem_of_fmap in Hm as [x [-> Hx]].
      unfold mark in Hne |- *.
      destruct (Message.ID x =? id) eqn:Hx'; [| exact Hx].
      apply Z.eqb_eq in Hx'. now cbn in Hne.
    + intros Hm. apply list_elem_of_fmap. exists m. split; [| exact Hm].
      unfold mark. now apply Z.eqb_neq in Hne as ->.
  - intros m Hm Hid. rewrite Hmsgs. apply list_elem_of_fmap.
    exists m. split; [| exact Hm]. unfold mark.
    now apply Z.eqb_eq in Hid as ->.
  - rewrite Hmsgs. apply length_map.
  - intros Hnone. unfold db'. fold mark. rewrite map_unchanged.
    + apply set_messages_same.
    + intros m Hm. unfold mark.
      now apply Hnone, Z.eqb_neq in Hm as ->.
Qed.

(** ** What the store keeps *)

Lemma max_rowid_nonneg (ids : list Z) : 0 <= max_rowid ids.
Proof. induction ids as [|x ids IH]; simpl; lia. Qed.

Lemma autoincrement_next (seq : Z) (ids : list Z) (id : Z) :
  autoincrement seq ids = Ok id -> seq < id /\ 0 < id.
Proof.
  unfold autoincrement. destruct (MaxInt64 <=? _); [discriminate |].
  intros [= <-]. pose proof (max_rowid_nonneg ids). lia.
Qed.

Lemma NoDup_map_filter {A B : Type} (f : A -> B) (p : A -> bool) (l : list A) :
  NoDup (map f l) -> NoDup (map f (List.filter p l)).
Proof.
  induction l as [|a l IH]; [auto |].
  cbn [map List.filter]. rewrite NoDup_cons. intros [Hnew Hrest].
  destruct (p a); [| auto].
  cbn [map]. apply NoDup_cons. split; [| auto].
  intros Hin. apply Hnew.
  apply list_elem_of_fmap in Hin as [x [-> Hx]].
  apply elem_of_filter_bool in Hx as [Hx _].
  apply list_elem_of_fmap. now exists x.
Qed.

Lemma NoDup_map_snoc {A : Type} (f : A -> Z) (l : list A) (a : A) :
  NoDup (map f l) -> (forall x, x ∈ l -> f x < f a) ->
  NoDup (map f (l ++ [a])).
Proof.
  intros Hl Hfresh. rewrite map_app. apply NoDup_app.
  split; [exact Hl |]. split; [| apply NoDup_singleton].
  intros y Hy Hy'. apply list_elem_of_fmap in Hy as [x [-> Hx]].
  cbn in Hy'. apply list_elem_of_singleton in Hy'.
  specialize (Hfresh x Hx). lia.
Qed.

Lemma Forall_filter_bool {A : Type} (P : A -> Prop) (p : A -> bool) (l : list A) :
  Forall P l -> Forall P (List.filter p l).
Proof.
  rewrite !Forall_forall. intros Hall x Hx.
  apply elem_of_filter_bool in Hx as [Hx _]. auto.
Qed.

Lemma NoDup_map_inj {A B : Type} (f : A -> B) (l : list A) (x y : A) :
  NoDup (map f l) -> x ∈ l -> y ∈ l -> f x = f y -> x = y.
Proof.
  induction l as [|a l IH]; intros Hnd Hx Hy Heq; [inversion Hx |].
  cbn [map] in Hnd. apply NoDup_cons in Hnd as [Hnew Hrest].
  apply elem_of_cons in Hx as [-> | Hx]; apply elem_of_cons in Hy as [-> | Hy].
  - reflexivity.
  - exfalso. apply Hnew. rewrite Heq. apply list_elem_of_fmap. now exists y.
  - exfalso. apply Hnew. rewrite <- Heq. apply list_elem_of_fmap. now exists x.
  - now apply IH.
Qed.

Lemma well_keyed_empty_db : well_keyed empty_db.
Proof.
  unfold well_keyed, empty_db. cbn.
  repeat split; first [apply NoDup_nil_2 | apply Forall_nil_2].
Qed.

Lemma step_well_keyed (db db' : DB) :
  step db db' -> well_keyed db -> well_keyed db'.
Proof.
  intros Hstep (Hf & Hfb & Hi & Hm & Hmb).
  destruct Hstep as
    [db now content tags sourceDir f db' Hop
    |db fid db' Hop
    |db now iid pid directory db' Hop
    |db now iid db' Hop
    |db iid db' Hop
    |db now maxAge db' Hop
    |db now from to content m db' Hop
    |db now mid db' Hop
    |db].
  - unfold AddFact in Hop. opened Hop. numbered Hop nid Hnew.
    injection Hop as _ <-.
    pose proof (autoincrement_fresh _ _ _ Hnew) as Hfresh.
    destruct (autoincrement_next _ _ _ Hnew) as [Hseq Hpos].
    unfold well_keyed. cbn [facts facts_seq instances messages messages_seq
                            set_facts].
    split; [| split; [| auto]].
    + apply NoDup_map_snoc; [exact Hf |]. intros x Hx. cbn [row_id].
      apply Hfresh, list_elem_of_fmap. now exists x.
    + apply Forall_app. split.
      * eapply Forall_impl; [exact Hfb |]. cbn. intros x Hx. lia.
      * apply Forall_singleton. cbn [row_id]. lia.
  - unfold DeleteFact in Hop. opened Hop. injection Hop as <-.
    unfold well_keyed. cbn [facts facts_seq instances messages messages_seq
                            set_facts].
    split; [now apply NoDup_map_filter |].
    split; [now apply Forall_filter_bool | auto].
  - unfold RegisterInstance in Hop. opened Hop. injection Hop as <-.
    unfold well_keyed. cbn [facts facts_seq instances messages messages_seq
                            set_instances].
    split; [exact Hf |]. split; [exact Hfb |]. split; [| auto].
    rewrite map_app. apply NoDup_app.
    split; [now apply NoDup_map_filter |].
    split; [| apply NoDup_singleton].
    intros y Hy Hy'. apply list_elem_of_fmap in Hy as [x [-> Hx]].
    cbn in Hy'. apply list_elem_of_singleton in Hy'.
    apply elem_of_filter_bool in Hx as [_ Hx].
    now apply negb_true_iff, String.eqb_neq in Hx.
  - unfold Heartbeat in Hop. opened Hop. injection Hop as <-.
    unfold well_keyed. cbn [facts facts_seq instances messages messages_seq
                            set_instances].
    split; [exact Hf |]. split; [exact Hfb |]. split; [| auto].
    rewrite map_map.
    erewrite map_ext; [exact Hi |].
    intros i. cbn. now destruct (String.eqb (Instance.ID i) iid).
  - unfold UnregisterInstance in Hop. opened Hop. injection Hop as <-.
    unfold well_keyed. cbn [facts facts_seq instances messages messages_seq
                            set_instances].
    split; [exact Hf |]. split; [exact Hfb |]. split; [| auto].
    now apply NoDup_map_filter.
  - unfold CleanupStaleInstances in Hop. opened Hop. injection Hop as <-.
    unfold well_keyed. cbn [facts facts_seq instances messages messages_seq
                            set_instances].
    split; [exact Hf |]. split; [exact Hfb |]. split; [| auto].
    now apply NoDup_map_filter.
  - unfold SendMessage in Hop. opened Hop. numbered Hop nid Hnew.
    injection Hop as _ <-.
    pose proof (autoincrement_fresh _ _ _ Hnew) as Hfresh.
    destruct (autoincrement_next _ _ _ Hnew) as [Hseq Hpos].
    unfold well_keyed. cbn [facts facts_seq instances messages messages_seq
                            set_messages].
    split; [exact Hf |]. split; [exact Hfb |]. split; [exact Hi |]. split.
    + apply NoDup_map_snoc; [exact Hm |]. intros x Hx. cbn [Message.ID].
      apply Hfresh, list_elem_of_fmap. now exists x.
    + apply Forall_app. split.
      * eapply Forall_impl; [exact Hmb |]. cbn. intros x Hx. lia.
      * apply Forall_singleton. cbn [Message.ID]. lia.
  - unfold MarkMessageRead in Hop. opened Hop. injection Hop as <-.
    unfold well_keyed. cbn [facts facts_seq instances messages messages_seq
                            set_messages].
    split; [exact Hf |]. split; [exact Hfb |]. split; [exact Hi |]. split.
    + rewrite map_map. erewrite map_ext; [exact Hm |].
      intros x. cbn. now destruct (Message.ID x =? mid).
    + apply Forall_map. eapply Forall_impl; [exact Hmb |].
      intros x Hx. cbn. now destruct (Message.ID x =? mid).
  - exact (conj Hf (conj Hfb (conj Hi (conj Hm Hmb)))).
Qed.

(** X13. Primary keys hold in every database the store methods can
    produce from a fresh one, in whatever order they are called: no two
    facts, no two instances and no two messages share an identifier
    ([RegisterInstance] replaces), and the identifiers of facts and messages
    are positive and at most the counter of their table.  So a lookup by
    identifier finds the only row that has it. *)
Theorem primary_keys_are_unique (db : DB) :
  evolves empty_db db ->
  well_keyed db /\
  (forall f, GetFactByID db (Fact.ID f) = Ok (Some f) ->
     forall r, r ∈ facts db -> row_id r = Fact.ID f -> scanFact r = f) /\
  (forall i, GetInstance db (Instance.ID i) = Ok (Some i) ->
     forall j, j ∈ instances db -> Instance.ID j = Instance.ID i -> j = i).
Proof.
  intros Hev.
  assert (Hkeys : well_keyed db).
  { pose proof well_keyed_empty_db as Hempty. revert Hempty.
    induction Hev as [|db0 db1 db2 Hstep _ IH]; [auto |].
    intros Hk. apply IH. exact (step_well_keyed db0 db1 Hstep Hk). }
  split; [exact Hkeys |].
  destruct Hkeys as (Hf & _ & Hi & _).
  split.
  - intros f Hget r Hr Hid. unfold GetFactByID in Hget. opened Hget.
    injection Hget as Hget.
    destruct (List.find _ (facts db)) as [r'|] eqn:Hfind; [| discriminate].
    injection Hget as <-. apply List.find_some in Hfind as [Hr' Hid'].
    apply list_elem_of_In in Hr'. apply Z.eqb_eq in Hid'. f_equal.
    apply (NoDup_map_inj row_id (facts db)); auto.
  - intros i Hget j Hj Hid. unfold GetInstance in Hget. opened Hget.
    injection Hget as Hget.
    apply List.find_some in Hget as [Hi' _]. apply list_elem_of_In in Hi'.
    apply (NoDup_map_inj Instance.ID (instances db)); auto.
Qed.

Lemma step_message_kept (m : Message.t) (db db' : DB) :
  step db db' -> message_kept m db -> message_kept m db'.
Proof.
  intros Hstep (Hseq & m' & Hin & Hsame & Huniq).
  destruct Hstep as
    [db now content tags sourceDir f db' Hop
    |db fid db' Hop
    |db now iid pid directory db' Hop
    |db now iid db' Hop
    |db iid db' Hop
    |db now maxAge db' Hop
    |db now from to content sentm db' Hop
    |db now mid db' Hop
    |db].
  - unfold AddFact in Hop. opened Hop. numbered Hop nid Hnew.
    injection Hop as _ <-. split; [exact Hseq |]. now exists m'.
  - unfold DeleteFact in Hop. opened Hop. injection Hop as <-.
    split; [exact Hseq |]. now exists m'.
  - unfold RegisterInstance in Hop. opened Hop. injection Hop as <-.
    split; [exact Hseq |]. now exists m'.
  - unfold Heartbeat in Hop. opened Hop. injection Hop as <-.
    split; [exact Hseq |]. now exists m'.
  - unfold UnregisterInstance in Hop. opened Hop. injection Hop as <-.
    split; [exact Hseq |]. now exists m'.
  - unfold CleanupStaleInstances in Hop. opened Hop. injection Hop as <-.
    split; [exact Hseq |]. now exists m'.
  - destruct (SendMessage_inv _ _ _ _ _ _ _ Hop)
      as (_ & _ & _ & Hmsgs & Hseq' & Hlt & _).
    split; [lia |]. exists m'. rewrite Hmsgs.
    split; [apply elem_of_app; now left |]. split; [exact Hsame |].
    intros x Hx Hid. apply elem_of_app in Hx as [Hx | Hx]; [auto |].
    apply list_elem_of_singleton in Hx. subst x. lia.
  - unfold MarkMessageRead in Hop. opened Hop. injection Hop as <-.
    cbn [messages messages_seq set_messages].
    set (mark := fun x : Message.t =>
                   if Message.ID x =? mid then Message.set_ReadAt x now else x).
    assert (Hmark : forall x, same_letter x (mark x)).
    { intros x. unfold mark, same_letter.
      destruct (Message.ID x =? mid); cbn; auto. }
    split; [exact Hseq |]. exists (mark m').
    split; [apply list_elem_of_fmap; now exists m' |]. split.
    + destruct Hsame as (H1 & H2 & H3 & H4 & H5).
      destruct (Hmark m') as (G1 & G2 & G3 & G4 & G5).
      unfold same_letter. repeat split; congruence.
    + intros x Hx Hid. apply list_elem_of_fmap in Hx as [y [-> Hy]].
      f_equal. apply Huniq; [exact Hy |].
      destruct (Hmark y) as (G1 & _). congruence.
  - split; [exact Hseq |]. now exists m'.
Qed.

(** X14. Messages are never removed.  Whatever the store does after a
    message was sent (unregistering or cleaning up its sender or recipient
    included), one row keeps its identifier, sender, recipient, content and
    time of sending, and on an open store the full listing of the recipient
    shows it; only its time of reading can change. *)
Theorem messages_are_never_deleted (db0 : DB) (now : Time)
    (from to content : string) (m : Message.t) (db1 db : DB) :
  SendMessage db0 now from to content = Ok (m, db1) ->
  evolves db1 db ->
  exists m',
    m' ∈ messages db /\
    Message.ID m' = Message.ID m /\
    Message.FromInstance m' = from /\ Message.ToInstance m' = to /\
    Message.Content m' = content /\ Message.CreatedAt m' = now /\
    (forall x, x ∈ messages db -> Message.ID x = Message.ID m -> x = m') /\
    (closed db = false ->
     exists msgs, GetMessages db to false = Ok msgs /\ m' ∈ msgs).
Proof.
  intros Hsend Hev.
  destruct (SendMessage_inv _ _ _ _ _ _ _ Hsend)
    as (_ & _ & Hm & Hmsgs & Hseq & _ & Hfresh & _).
  assert (Hkept : message_kept m db1).
  { split; [lia |]. exists m. rewrite Hmsgs.
    split; [apply elem_of_app; right; apply list_elem_of_here |].
    split; [unfold same_letter; auto |].
    intros x Hx Hid. apply elem_of_app in Hx as [Hx | Hx].
    - specialize (Hfresh x Hx). lia.
    - now apply list_elem_of_singleton in Hx. }
  assert (Hkept' : message_kept m db).
  { revert Hkept. clear -Hev.
    induction Hev as [|d0 d1 d2 Hstep _ IH]; [auto |].
    intros Hk. apply IH. exact (step_message_kept m d0 d1 Hstep Hk). }
  destruct Hkept' as (_ & m' & Hin & (H1 & H2 & H3 & H4 & H5) & Huniq).
  exists m'. rewrite Hm in H2, H3, H4, H5. cbn in H2, H3, H4, H5.
  repeat (split; [assumption |]).
  intros Hopen. rewrite (GetMessages_open db to false Hopen).
  eexists. split; [reflexivity |].
  apply elem_of_order_by_asc, elem_of_filter_bool. split; [exact Hin |].
  rewrite H3, String.eqb_refl. reflexivity.
Qed.

(** ** Tool handlers *)

Lemma slice_to_split (n : nat) (s : string) :
  (n <= String.length s)%nat ->
  exists dropped,
    s = slice_to n s +:+ dropped /\ String.length (slice_to n s) = n.
Proof.
  revert s. induction n as [|n IH]; intros s Hn.
  - exists s. now destruct s.
  - destruct s as [|c s]; [cbn in Hn; lia |].
    destruct (IH s) as [dropped [Hs Hlen]]; [cbn in Hn; lia |].
    exists dropped. cbn [slice_to String.length]. rewrite append_cons.
    split; [now rewrite <- Hs | now rewrite Hlen].
Qed.

(** X15. [truncate] with room for the ellipsis ([maxLen] at least 3)
    returns at most [maxLen] bytes: a string that fits is returned as it
    is, a longer one gives its first [maxLen - 3] bytes followed by three
    dots, [maxLen] bytes in all.  The cut is on bytes, wherever it falls. *)
Theorem truncate_fits_the_length (s : string) (maxLen : Z) :
  3 <= maxLen ->
  len (truncate s maxLen) = Z.min (len s) maxLen /\
  (len s <= maxLen -> truncate s maxLen = s) /\
  (maxLen < len s ->
   exists kept dropped,
     s = kept +:+ dropped /\ len kept = maxLen - 3 /\
     truncate s maxLen = kept +:+ "...").
Proof.
  intros Hroom. unfold truncate.
  destruct (len s <=? maxLen) eqn:Hfit.
  - apply Z.leb_le in Hfit. split; [lia |]. split; [auto | lia].
  - apply Z.leb_gt in Hfit.
    destruct (slice_to_split (Z.to_nat (maxLen - 3)) s) as [dropped [Hs Hlen]].
    { unfold len in Hfit. lia. }
    split; [| split; [lia |]].
    + unfold len in *. rewrite length_append, Hlen. cbn [String.length]. lia.
    + intros _. exists (slice_to (Z.to_nat (maxLen - 3)) s), dropped.
      split; [exact Hs |]. split; [unfold len; lia | reflexivity].
Qed.

Section ToolFrames.

Context `{SearchEngine} `{TimeFormat}.

Lemma toolRemember_frame (s : Server) (now : Time) (args : gmap string JSON)
    (db : DB) :
  let db' := snd (toolRemember s now args db) in
  evolves db db' /\ closed db' = closed db /\
  (exists new, facts db' = (facts db ++ new)%list) /\
  instances db' = instances db /\
  messages db' = messages db /\ messages_seq db' = messages_seq db.
Proof.
  cbv zeta. unfold toolRemember.
  assert (Hsame : evolves db db /\ closed db = closed db /\
            (exists new, facts db = (facts db ++ new)%list) /\
            instances db = instances db /\
            messages db = messages db /\ messages_seq db = messages_seq db).
  { repeat split; [apply rtc_refl |]. exists []. now rewrite app_nil_r. }
  destruct (as_string (args !! "fact")) as [fact|]; [| exact Hsame].
  destruct (is_empty fact); [exact Hsame |].
  destruct (AddFact db now fact (tagsArgument args) (workDir s))
    as [[f db'] | err] eqn:Hadd; [| exact Hsame].
  cbn [snd]. split; [apply rtc_once; econstructor; exact Hadd |].
  destruct (AddFact_inv _ _ _ _ _ _ _ Hadd) as (Hopen' & _ & _ & _ & Hfacts & _).
  unfold AddFact in Hadd. destruct (closed db) eqn:Hopen.
  { rewrite (connection_closed db Hopen) in Hadd. discriminate. }
  opened Hadd. numbered Hadd nid Hnew. injection Hadd as _ <-.
  split; [cbn; now rewrite Hopen |].
  split; [eexists; reflexivity |]. repeat split.
Qed.

Lemma toolListInstances_frame (s : Server) (now : Time)
    (args : gmap string JSON) (db : DB) :
  let db' := snd (toolListInstances s now args db) in
  evolves db db' /\ closed db' = closed db /\
  facts db' = facts db /\ facts_seq db' = facts_seq db /\
  messages db' = messages db /\ messages_seq db' = messages_seq db /\
  db' = match CleanupStaleInstances db now (5 * minute) with
        | Ok cleaned => cleaned
        | Err _ => db
        end.
Proof.
  cbv zeta. unfold toolListInstances.
  set (cleaned := match CleanupStaleInstances db now (5 * minute) with
                  | Ok db' => db'
                  | Err _ => db
                  end).
  assert (Hsnd : snd (match GetInstances cleaned with
                      | Ok instances =>
                          if (length instances =? 0)%nat
                          then (textResult "No other running instances found.",
                                cleaned)
                          else
                            (textResult
                               (fold_left
                                  (fun sb inst => sb +:+ renderInstance s inst)
                                  instances
                                  ("Found " +:+ itoa (Z.of_nat (length instances))
                                   +:+ " running instance(s):" +:+ nl +:+ nl)),
                             cleaned)
                      | Err err =>
                          (errorResult ("failed to list instances: " +:+ err),
                           cleaned)
                      end) = cleaned).
  { destruct (GetInstances cleaned) as [l|]; [| reflexivity].
    now destruct (length l =? 0)%nat. }
  rewrite Hsnd. unfold cleaned.
  destruct (CleanupStaleInstances db now (5 * minute)) as [db'|] eqn:Hop.
  - split; [apply rtc_once; econstructor; exact Hop |].
    unfold CleanupStaleInstances in Hop. opened Hop. injection Hop as <-.
    repeat split.
  - repeat split. apply rtc_refl.
Qed.

Lemma toolSendMessage_frame (s : Server) (now : Time)
    (args : gmap string JSON) (db : DB) :
  let db' := snd (toolSendMessage s now args db) in
  evolves db db' /\ closed db' = closed db /\
  facts db' = facts db /\ facts_seq db' = facts_seq db /\
  instances db' = instances db /\
  (exists new, messages db' = (messages db ++ new)%list).
Proof.
  cbv zeta. unfold toolSendMessage.
  assert (Hsame : evolves db db /\ closed db = closed db /\
            facts db = facts db /\ facts_seq db = facts_seq db /\
            instances db = instances db /\
            (exists new, messages db = (messages db ++ new)%list)).
  { repeat split; [apply rtc_refl |]. exists []. now rewrite app_nil_r. }
  destruct (as_string (args !! "to")) as [to|]; [| exact Hsame].
  destruct (is_empty to); [exact Hsame |].
  destruct (as_string (args !! "content")) as [content|]; [| exact Hsame].
  destruct (is_empty content); [exact Hsame |].
  destruct (GetInstance db to) as [[target|]|]; try exact Hsame.
  destruct (SendMessage db now (instanceID s) to content)
    as [[m db']|] eqn:Hsend; [| exact Hsame].
  cbn [snd]. split; [apply rtc_once; econstructor; exact Hsend |].
  destruct (closed db) eqn:Hopen.
  { unfold SendMessage in Hsend.
    rewrite (connection_closed db Hopen) in Hsend. discriminate. }
  unfold SendMessage in Hsend. opened Hsend. numbered Hsend nid Hnew.
  injection Hsend as _ <-.
  split; [cbn; now rewrite Hopen |].
  repeat split. eexists. reflexivity.
Qed.

Lemma toolGetMessages_frame (s : Server) (now : Time)
    (args : gmap string JSON) (db : DB) :
  let db' := snd (toolGetMessages s now args db) in
  evolves db db' /\ closed db' = closed db /\
  facts db' = facts db /\ facts_seq db' = facts_seq db /\
  instances db' = instances db /\
  length (messages db') = length (messages db) /\
  messages_seq db' = messages_seq db.
Proof.
  cbv zeta. rewrite toolGetMessages_db.
  destruct (GetMessages db (instanceID s) (unreadOnlyArgument args))
    as [msgs|] eqn:Hget.
  - split; [apply showMessage_loop_evolves |].
    assert (Hopen : closed db = false).
    { destruct (closed db) eqn:Hc; [| reflexivity].
      unfold GetMessages in Hget.
      rewrite (connection_closed db Hc) in Hget. discriminate. }
    rewrite showMessage_loop by exact Hopen.
    cbn [closed facts facts_seq instances messages messages_seq set_messages].
    rewrite length_map. now rewrite Hopen.
  - repeat split. apply rtc_refl.
Qed.

Lemma callTool_evolves (s : Server) (now : Time) (params : ToolCallParams.t)
    (db : DB) :
  evolves db (snd (callTool s now params db)).
Proof.
  unfold callTool.
  destruct (String.eqb (ToolCallParams.Name params) "remember");
    [apply toolRemember_frame |].
  destruct (String.eqb (ToolCallParams.Name params) "recall");
    [apply rtc_refl |].
  destruct (String.eqb (ToolCallParams.Name params) "get_context");
    [apply rtc_refl |].
  destruct (String.eqb (ToolCallParams.Name params) "list_instances");
    [apply toolListInstances_frame |].
  destruct (String.eqb (ToolCallParams.Name params) "send_message");
    [apply toolSendMessage_frame |].
  destruct (String.eqb (ToolCallParams.Name params) "get_messages");
    [apply toolGetMessages_frame |].
  apply rtc_refl.
Qed.

(** X16. Through the tools of the server a database only grows in facts
    and messages.  Whatever the tool name and the arguments, the call never
    closes the database, never removes or rewrites a stored fact and never
    removes a message; only [remember] adds facts, only [list_instances]
    changes the table of instances, only [send_message] and [get_messages]
    change the table of messages, and [recall] and [get_context] change
    nothing. *)
Theorem tool_call_changes_its_own_table (s : Server) (now : Time)
    (params : ToolCallParams.t) (db : DB) :
  let name := ToolCallParams.Name params in
  let db' := snd (callTool s now params db) in
  evolves db db' /\ closed db' = closed db /\
  (exists new, facts db' = (facts db ++ new)%list) /\
  (length (messages db) <= length (messages db'))%nat /\
  (name <> "remember" ->
   facts db' = facts db /\ facts_seq db' = facts_seq db) /\
  (name <> "list_instances" -> instances db' = instances db) /\
  (name <> "send_message" -> name <> "get_messages" ->
   messages db' = messages db) /\
  (name <> "remember" -> name <> "list_instances" ->
   name <> "send_message" -> name <> "get_messages" -> db' = db).
Proof.
  cbv zeta. unfold callTool.
  assert (Hnil : forall l : list FactRow, exists new, l = (l ++ new)%list).
  { intros l. exists []. now rewrite app_nil_r. }
  destruct (String.eqb_spec (ToolCallParams.Name params) "remember") as [-> | H1].
  { destruct (toolRemember_frame s now (ToolCallParams.Arguments params) db)
      as (Hev & Hc & Hf & Hi & Hm & Hs).
    rewrite Hm. repeat split; try congruence; auto; try lia. }
  destruct (String.eqb_spec (ToolCallParams.Name params) "recall") as [-> | H2].
  { cbn [snd]. repeat split; auto; try lia. apply rtc_refl. }
  destruct (String.eqb_spec (ToolCallParams.Name params) "get_context")
    as [-> | H3].
  { cbn [snd]. repeat split; auto; try lia. apply rtc_refl. }
  destruct (String.eqb_spec (ToolCallParams.Name params) "list_instances")
    as [-> | H4].
  { destruct (toolListInstances_frame s now (ToolCallParams.Arguments params) db)
      as (Hev & Hc & Hf & Hfs & Hm & Hs & _).
    rewrite Hm, Hf. repeat split; try congruence; auto; try lia. }
  destruct (String.eqb_spec (ToolCallParams.Name params) "send_message")
    as [-> | H5].
  { destruct (toolSendMessage_frame s now (ToolCallParams.Arguments params) db)
      as (Hev & Hc & Hf & Hfs & Hi & [new Hm]).
    rewrite Hm, Hf, length_app.
    repeat split; try congruence; auto; try lia. }
  destruct (String.eqb_spec (ToolCallParams.Name params) "get_messages")
    as [-> | H6].
  { destruct (toolGetMessages_frame s now (ToolCallParams.Arguments params) db)
      as (Hev & Hc & Hf & Hfs & Hi & Hm & Hs).
    rewrite Hm, Hf. repeat split; try congruence; auto; try lia. }
  cbn [snd]. repeat split; auto; try lia. apply rtc_refl.
Qed.

(** X17. On a closed database every tool call gives an error result and
    leaves the database as it was, whatever the tool and its arguments. *)
Theorem closed_store_fails_every_tool (s : Server) (now : Time)
    (params : ToolCallParams.t) (db : DB) :
  closed db = true ->
  IsError (fst (callTool s now params db)) = true /\
  snd (callTool s now params db) = db.
Proof.
  intros Hclosed. pose proof (connection_closed db Hclosed) as Hconn.
  unfold callTool.
  set (args := ToolCallParams.Arguments params).
  destruct (String.eqb (ToolCallParams.Name params) "remember").
  { unfold toolRemember.
    destruct (as_string (args !! "fact")) as [fact|]; [| now split].
    destruct (is_empty fact); [now split |].
    unfold AddFact. rewrite Hconn. now split. }
  destruct (String.eqb (ToolCallParams.Name params) "recall").
  { unfold toolRecall. rewrite GetFacts_closed by exact Hclosed. now split. }
  destruct (String.eqb (ToolCallParams.Name params) "get_context").
  { unfold toolGetContext. rewrite GetFacts_closed by exact Hclosed.
    now split. }
  destruct (String.eqb (ToolCallParams.Name params) "list_instances").
  { unfold toolListInstances, CleanupStaleInstances, GetInstances.
    rewrite Hconn. cbn [mbind result_bind]. rewrite Hconn. now split. }
  destruct (String.eqb (ToolCallParams.Name params) "send_message").
  { unfold toolSendMessage.
    destruct (as_string (args !! "to")) as [to|]; [| now split].
    destruct (is_empty to); [now split |].
    destruct (as_string (args !! "content")) as [content|]; [| now split].
    destruct (is_empty content); [now split |].
    unfold GetInstance. rewrite Hconn. now split. }
  destruct (String.eqb (ToolCallParams.Name params) "get_messages").
  { unfold toolGetMessages, GetMessages. rewrite Hconn. now split. }
  now split.
Qed.

End ToolFrames.


Section ToolResults.

Context `{SearchEngine} `{TimeFormat}.




End ToolResults.

(** ** Protocol engine *)

Section Protocol.

Context `{SearchEngine} `{TimeFormat} `{EnvelopeCodec}.

Lemma handleToolCall_writes (s : Server) (now : Time) (w : Writer)
    (req : Request.t) (db : DB) :
  exists resp,
    fst (handleToolCall s now w req db) = (w ++ [resp])%list /\
    Response.JSONRPC resp = "2.0" /\ Response.ID resp = Request.ID req /\
    evolves db (snd (handleToolCall s now w req db)) /\
    match Response.Error resp with
    | None => exists params result,
        unmarshalToolCallParams (Request.Params req) = Some params /\
        Response.Result resp = Some (ToolResultValue result) /\
        callTool s now params db
        = (result, snd (handleToolCall s now w req db))
    | Some e =>
        Response.Result resp = None /\
        e = {| Code := -32602; Message := "Invalid params"; Data := JNull |} /\
        unmarshalToolCallParams (Request.Params req) = None /\
        snd (handleToolCall s now w req db) = db
    end.
Proof.
  unfold handleToolCall.
  destruct (unmarshalToolCallParams (Request.Params req)) as [params|].
  - pose proof (callTool_evolves s now params db) as Hev.
    destruct (callTool s now params db) as [result db'] eqn:Hcall.
    eexists. split; [reflexivity |]. cbn.
    split; [reflexivity |]. split; [reflexivity |]. split; [exact Hev |].
    now exists params, result.
  - eexists. split; [reflexivity |]. cbn. repeat split. apply rtc_refl.
Qed.

(** X21. Every request is answered once, except the notification
    [initialized], which is not answered.  The response carries the
    identifier of the request and version 2.0, and either a result or an
    error, never both.  An error object is sent in two cases only: an
    unknown method (-32601) and tool parameters that do not decode
    (-32602); a tool that fails is answered with a result.  Only
    [tools/call] can change the database. *)
Theorem every_request_gets_one_response (s : Server) (now : Time)
    (w : Writer) (req : Request.t) (db : DB) :
  let out := handleRequest s now w req db in
  evolves db (snd out) /\
  (Request.Method req <> "tools/call" -> snd out = db) /\
  (Request.Method req = "initialized" -> fst out = w) /\
  (Request.Method req <> "initialized" ->
   exists resp,
     fst out = (w ++ [resp])%list /\
     Response.JSONRPC resp = "2.0" /\ Response.ID resp = Request.ID req /\
     match Response.Error resp with
     | None => Response.Result resp <> None
     | Some e =>
         Response.Result resp = None /\ Data e = JNull /\
         ((Code e = -32601 /\ Message e = "Method not found" /\
           Request.Method req
             ∉ ["initialize"; "initialized"; "tools/list"; "tools/call"; "ping"])
          \/ (Code e = -32602 /\ Message e = "Invalid params" /\
              Request.Method req = "tools/call" /\
              unmarshalToolCallParams (Request.Params req) = None))
     end).
Proof.
  cbv zeta. unfold handleRequest.
  destruct (String.eqb_spec (Request.Method req) "initialize") as [Hm | Hn1].
  { cbn [fst snd]. split; [apply rtc_refl |]. split; [auto |].
    split; [rewrite Hm; discriminate |]. intros _.
    eexists. split; [reflexivity |]. cbn. repeat split. discriminate. }
  destruct (String.eqb_spec (Request.Method req) "initialized") as [Hm | Hn2].
  { cbn [fst snd]. split; [apply rtc_refl |]. split; [auto |].
    split; [auto | contradiction]. }
  destruct (String.eqb_spec (Request.Method req) "tools/list") as [Hm | Hn3].
  { cbn [fst snd]. split; [apply rtc_refl |]. split; [auto |].
    split; [contradiction |]. intros _.
    eexists. split; [reflexivity |]. cbn. repeat split. discriminate. }
  destruct (String.eqb_spec (Request.Method req) "tools/call") as [Hm | Hn4].
  { destruct (handleToolCall_writes s now w req db)
      as (resp & Hw & Hv & Hid & Hev & Hresp).
    split; [exact Hev |]. split; [contradiction |].
    split; [contradiction |]. intros _.
    exists resp. repeat (split; [assumption |]).
    destruct (Response.Error resp) as [e|].
    - destruct Hresp as (Hr & -> & Hp & _). split; [exact Hr |].
      split; [reflexivity |]. right. now repeat split.
    - destruct Hresp as (params & result & _ & -> & _). discriminate. }
  destruct (String.eqb_spec (Request.Method req) "ping") as [Hm | Hn5].
  { cbn [fst snd]. split; [apply rtc_refl |]. split; [auto |].
    split; [contradiction |]. intros _.
    eexists. split; [reflexivity |]. cbn. repeat split. discriminate. }
  cbn [fst snd]. split; [apply rtc_refl |]. split; [auto |].
  split; [contradiction |]. intros _.
  eexists. split; [reflexivity |]. cbn. repeat split. left.
  repeat split. rewrite !elem_of_cons, elem_of_nil. tauto.
Qed.



End Protocol.

(** ** Operations in sequence *)


Section Sequences.

Context `{SearchEngine}.


End Sequences.


(** ** Command line *)

(** X23. [clauder send] checks the recipient as the tool does, and
    nothing else.  On an open store, with no instance registered under the
    first argument the command fails with [instance '<to>' not found] and
    stores nothing.  With the recipient registered and identifiers left it
    stores one unread message from [cli] whose content is the other
    arguments joined by single spaces, also when that content is empty, and
    the next [get_messages] of the recipient returns it. *)
Theorem cli_send_checks_recipient_only (now : Time) (db : DB) (to : string)
    (rest : list string) :
  closed db = false ->
  ((forall i, i ∈ instances db -> Instance.ID i <> to) ->
   runSend now (Ok db) (to :: rest)
   = Some (Some ("instance '" +:+ to +:+ "' not found"), EmptyString, Ok db))
  /\ (forall target,
        target ∈ instances db -> Instance.ID target = to ->
        Z.max (messages_seq db) (max_rowid (map Message.ID (messages db)))
        < MaxInt64 ->
        exists m db',
          runSend now (Ok db) (to :: rest)
          = Some (None,
                  "Message #" +:+ itoa (Message.ID m) +:+ " sent to " +:+ to
                  +:+ nl,
                  Ok db') /\
          messages db' = (messages db ++ [m])%list /\
          m = {| Message.ID := Message.ID m; Message.FromInstance := "cli";
                 Message.ToInstance := to; Message.Content := Join rest " ";
                 Message.CreatedAt := now; Message.ReadAt := None |} /\
          forall s args,
            instanceID s = to -> finds_unread db' s args (Message.ID m)).
Proof.
  intros Hopen. split.
  - intros Hnone. unfold runSend, GetInstance.
    rewrite (connection_open db Hopen). cbn [mbind result_bind].
    assert (Hfind : List.find (fun i => String.eqb (Instance.ID i) to)
                      (instances db) = None).
    { apply find_none_iff. intros i Hi. apply String.eqb_neq. auto. }
    now rewrite Hfind.
  - intros target Hin Hid Hroom. unfold runSend, GetInstance.
    rewrite (connection_open db Hopen). cbn [mbind result_bind].
    destruct (List.find (fun i => String.eqb (Instance.ID i) to) (instances db))
      as [found|] eqn:Hfind.
    2:{ pose proof (proj1 (find_none_iff _ _) Hfind target Hin) as Hno.
        apply String.eqb_neq in Hno. contradiction. }
    pose proof (SendMessage_open db now "cli" to (Join rest " ") Hopen Hroom)
      as Hsend. cbv zeta in Hsend. rewrite Hsend.
    eexists _, _. split; [reflexivity |]. split; [reflexivity |].
    split; [reflexivity |].
    intros s args Hs. unfold finds_unread.
    rewrite GetMessages_open by exact Hopen.
    eexists _, _. split; [reflexivity |]. split; [| split; reflexivity].
    apply elem_of_order_by_asc, elem_of_filter_bool. split.
    + cbn [messages set_messages]. apply elem_of_app. right.
      apply list_elem_of_here.
    + cbn. rewrite Hs, String.eqb_refl.
      now destruct (unreadOnlyArgument args).
Qed.

(** X24. [clauder remember] stores its arguments joined by single
    spaces as one fact, whole, with the tags of the flag and the working
    directory; it has no check on the text, so an empty one is stored too.
    On an open store with identifiers left the command succeeds, prints the
    new identifier, and the fact is read back by it.  When the store does
    not open or the working directory is unknown, nothing is stored. *)
Theorem cli_remember_stores_joined_words (now : Time) (db : DB)
    (workDir : string) (rememberTags args : list string) :
  closed db = false ->
  Z.max (facts_seq db) (max_rowid (map row_id (facts db))) < MaxInt64 ->
  Forall ascii_text rememberTags ->
  (exists f db',
     runRemember now (Ok db) (Ok workDir) rememberTags args
     = (None, "Stored fact #" +:+ itoa (Fact.ID f) +:+ nl, Ok db') /\
     f = {| Fact.ID :=
              Z.max (facts_seq db) (max_rowid (map row_id (facts db))) + 1;
            Fact.Content := Join args " "; Fact.Tags := rememberTags;
            Fact.SourceDir := workDir;
            Fact.CreatedAt := now; Fact.UpdatedAt := now |} /\
     facts db' = (facts db ++ [stored_row f])%list /\
     GetFactByID db' (Fact.ID f) = Ok (Some f))
  /\ (forall err,
        runRemember now (Ok db) (Err err) rememberTags args
        = (Some ("failed to get working directory: " +:+ err), EmptyString,
           Ok db))
  /\ (forall err getwd,
        runRemember now (Err err) getwd rememberTags args
        = (Some ("failed to open store: " +:+ err), EmptyString, Err err)).
Proof.
  intros Hopen Hroom _. split; [| split; reflexivity].
  destruct (AddFact db now (Join args " ") rememberTags workDir)
    as [[f db']|err] eqn:Hadd.
  2:{ unfold AddFact, autoincrement in Hadd.
      rewrite (connection_open db Hopen) in Hadd.
      cbn [mbind result_bind] in Hadd.
      destruct (MaxInt64 <=? _) eqn:Hfull; [| discriminate].
      apply Z.leb_le in Hfull. lia. }
  exists f, db'. unfold runRemember. rewrite Hadd.
  destruct (AddFact_inv _ _ _ _ _ _ _ Hadd)
    as (Hopen' & Hfresh & _ & _ & Hfacts & _).
  split; [reflexivity |]. split; [| split; [exact Hfacts |]].
  - unfold AddFact, autoincrement in Hadd.
    rewrite (connection_open db Hopen) in Hadd.
    cbn [mbind result_bind] in Hadd.
    destruct (MaxInt64 <=? _); [discriminate |].
    cbn [mbind result_bind] in Hadd. now injection Hadd as <- _.
  - unfold GetFactByID. rewrite (connection_open db' Hopen').
    cbn [mbind result_bind]. rewrite Hfacts, find_app_skip.
    + cbn [List.find stored_row row_id]. rewrite Z.eqb_refl.
      cbn [fmap option_fmap option_map]. now rewrite scanFact_stored_row.
    + intros r Hr. apply Z.eqb_neq. specialize (Hfresh r Hr). lia.
Qed.

(** * Part VI: the further properties at concrete inputs *)

Lemma added_fact_is_read_back_witness :
  exists f,
    AddFact empty_db 0 "use sqlite" ["arch"; "decision"] "/p"
    = Ok (f, one_note) /\
    Forall ascii_text ["arch"; "decision"] /\
    GetFactByID one_note (Fact.ID f) = Ok (Some f) /\
    Fact.Tags f = ["arch"; "decision"].
Proof.
  assert (Hadd : AddFact empty_db 0 "use sqlite" ["arch"; "decision"] "/p"
                 = Ok ({| Fact.ID := 1; Fact.Content := "use sqlite";
                          Fact.Tags := ["arch"; "decision"];
                          Fact.SourceDir := "/p";
                          Fact.CreatedAt := 0; Fact.UpdatedAt := 0 |},
                       one_note)) by reflexivity.
  assert (Hascii : Forall ascii_text ["arch"; "decision"])
    by (repeat constructor).
  destruct (added_fact_is_read_back _ _ _ _ _ _ _ Hadd Hascii)
    as (Hget & _ & Htags & _).
  eexists. split; [exact Hadd |]. split; [exact Hascii |].
  split; [exact Hget | exact Htags].
Defined.

Lemma stored_fact_is_immutable_witness :
  exists f,
    AddFact empty_db 0 "use sqlite" ["arch"; "decision"] "/p"
    = Ok (f, one_note) /\
    Forall ascii_text ["arch"; "decision"] /\
    evolves one_note two_notes /\ closed two_notes = false /\
    (GetFactByID two_notes (Fact.ID f) = Ok None \/
     GetFactByID two_notes (Fact.ID f) = Ok (Some f)).
Proof.
  assert (Hadd : AddFact empty_db 0 "use sqlite" ["arch"; "decision"] "/p"
                 = Ok ({| Fact.ID := 1; Fact.Content := "use sqlite";
                          Fact.Tags := ["arch"; "decision"];
                          Fact.SourceDir := "/p";
                          Fact.CreatedAt := 0; Fact.UpdatedAt := 0 |},
                       one_note)) by reflexivity.
  assert (Hascii : Forall ascii_text ["arch"; "decision"])
    by (repeat constructor).
  assert (Hev : evolves one_note two_notes).
  { apply rtc_once.
    eapply (step_AddFact one_note 1 "another note" ["misc"] "/q").
    reflexivity. }
  assert (Hopen : closed two_notes = false) by reflexivity.
  eexists. split; [exact Hadd |]. split; [exact Hascii |].
  split; [exact Hev |]. split; [exact Hopen |].
  exact (stored_fact_is_immutable _ _ _ _ _ _ _ _ Hadd Hascii Hev Hopen).
Defined.

Lemma delete_fact_is_idempotent_witness :
  closed one_note = false /\
  exists db',
    DeleteFact one_note 1 = Ok db' /\
    GetFactByID db' 1 = Ok None /\
    DeleteFact db' 1 = Ok db'.
Proof.
  assert (Hopen : closed one_note = false) by reflexivity.
  split; [exact Hopen |].
  destruct (delete_fact_is_idempotent one_note 1 Hopen)
    as (db' & Hdel & Hgone & _ & Hagain & _).
  exists db'. split; [exact Hdel |]. split; [exact Hgone | exact Hagain].
Defined.

Lemma identifiers_are_never_reused_witness :
  exists f f',
    AddFact empty_db 0 "use sqlite" ["arch"; "decision"] "/p"
    = Ok (f, one_note) /\
    evolves one_note note_deleted /\
    facts note_deleted = [] /\
    AddFact note_deleted 5 "again" [] "/p"
    = Ok (f', added note_deleted 5 "again" [] "/p") /\
    Fact.ID f < Fact.ID f'.
Proof.
  assert (Hadd : AddFact empty_db 0 "use sqlite" ["arch"; "decision"] "/p"
                 = Ok ({| Fact.ID := 1; Fact.Content := "use sqlite";
                          Fact.Tags := ["arch"; "decision"];
                          Fact.SourceDir := "/p";
                          Fact.CreatedAt := 0; Fact.UpdatedAt := 0 |},
                       one_note)) by reflexivity.
  assert (Hev : evolves one_note note_deleted).
  { apply rtc_once. eapply (step_DeleteFact one_note 1). reflexivity. }
  assert (Hadd' : AddFact note_deleted 5 "again" [] "/p"
                  = Ok ({| Fact.ID := 2; Fact.Content := "again";
                           Fact.Tags := []; Fact.SourceDir := "/p";
                           Fact.CreatedAt := 5; Fact.UpdatedAt := 5 |},
                        added note_deleted 5 "again" [] "/p"))
    by reflexivity.
  destruct (identifiers_are_never_reused empty_db one_note note_deleted
              (added note_deleted 5 "again" [] "/p")) as [Hfacts _].
  eexists _, _. split; [exact Hadd |]. split; [exact Hev |].
  split; [reflexivity |]. split; [exact Hadd' |].
  exact (Hfacts _ _ _ _ _ _ _ _ _ _ Hadd Hev Hadd').
Defined.


Lemma register_instance_replaces_witness :
  closed two_instances = false /\
  exists db',
    RegisterInstance two_instances (10 * minute) "old" 333 "/moved" = Ok db' /\
    GetInstance db' "old"
    = Ok (Some {| Instance.ID := "old"; Instance.PID := 333;
                  Instance.Directory := "/moved";
                  Instance.StartedAt := 10 * minute;
                  Instance.LastHeartbeat := 10 * minute |}).
Proof.
  assert (Hopen : closed two_instances = false) by reflexivity.
  split; [exact Hopen |].
  destruct (register_instance_replaces two_instances (10 * minute) "old" 333
              "/moved" Hopen) as (db' & Hreg & Hget & _).
  exists db'. split; [exact Hreg | exact Hget].
Defined.

Lemma heartbeat_touches_one_instance_witness :
  closed two_instances = false /\
  exists db',
    Heartbeat two_instances (10 * minute) "gone" = Ok db' /\
    db' = two_instances.
Proof.
  assert (Hopen : closed two_instances = false) by reflexivity.
  split; [exact Hopen |].
  destruct (heartbeat_touches_one_instance two_instances (10 * minute) "gone"
              Hopen) as (db' & Hbeat & _ & _ & Hnone & _).
  exists db'. split; [exact Hbeat |]. apply Hnone.
  intros i Hi. unfold two_instances in Hi. cbn [instances] in Hi.
  rewrite !elem_of_cons, elem_of_nil in Hi.
  destruct Hi as [-> | [-> | []]]; discriminate.
Defined.

Lemma unregister_instance_is_idempotent_witness :
  closed two_instances = false /\
  exists db',
    UnregisterInstance two_instances "old" = Ok db' /\
    GetInstance db' "old" = Ok None /\
    UnregisterInstance db' "old" = Ok db'.
Proof.
  assert (Hopen : closed two_instances = false) by reflexivity.
  split; [exact Hopen |].
  destruct (unregister_instance_is_idempotent two_instances "old" Hopen)
    as (db' & Hun & Hgone & _ & Hagain & _).
  exists db'. split; [exact Hun |]. split; [exact Hgone | exact Hagain].
Defined.


Lemma store_sends_to_any_recipient_witness :
  closed empty_db = false /\
  instances empty_db = [] /\
  exists m db',
    SendMessage empty_db 3 "a1b2c3d4" "nobody" "hi" = Ok (m, db') /\
    Message.ID m = 1 /\
    exists msgs, GetMessages db' "nobody" true = Ok msgs /\ m ∈ msgs.
Proof.
  assert (Hopen : closed empty_db = false) by reflexivity.
  assert (Hroom : Z.max (messages_seq empty_db)
                    (max_rowid (map Message.ID (messages empty_db)))
                  < MaxInt64) by reflexivity.
  split; [exact Hopen |]. split; [reflexivity |].
  destruct (store_sends_to_any_recipient empty_db 3 "a1b2c3d4" "nobody" "hi"
              Hopen Hroom) as (m & db' & Hsend & Hm & Hlisted & _).
  exists m, db'. split; [exact Hsend |]. split; [now rewrite Hm |].
  exact (Hlisted true).
Defined.


Lemma mark_message_read_hides_it_witness :
  closed inbox = false /\
  exists db',
    MarkMessageRead inbox 9 1 = Ok db' /\
    Message.set_ReadAt hello 9 ∈ messages db' /\
    length (messages db') = length (messages inbox).
Proof.
  assert (Hopen : closed inbox = false) by reflexivity.
  split; [exact Hopen |].
  destruct (mark_message_read_hides_it inbox 9 1 Hopen)
    as (db' & Hmark & _ & _ & _ & Hread & Hlen & _).
  exists db'. split; [exact Hmark |]. split; [| exact Hlen].
  apply Hread; [apply list_elem_of_here | reflexivity].
Defined.

Lemma primary_keys_are_unique_witness :
  evolves empty_db two_notes /\ well_keyed two_notes.
Proof.
  assert (Hev : evolves empty_db two_notes).
  { eapply rtc_l.
    - eapply (step_AddFact empty_db 0 "use sqlite" ["arch"; "decision"] "/p").
      reflexivity.
    - apply rtc_once.
      eapply (step_AddFact one_note 1 "another note" ["misc"] "/q").
      reflexivity. }
  split; [exact Hev |].
  exact (proj1 (primary_keys_are_unique two_notes Hev)).
Defined.

Lemma messages_are_never_deleted_witness :
  SendMessage empty_db 5 "e5f6a7b8" "a1b2c3d4" "hello" = Ok (hello, inbox) /\
  evolves inbox inbox_read /\
  exists m',
    m' ∈ messages inbox_read /\ Message.ID m' = Message.ID hello /\
    Message.Content m' = "hello".
Proof.
  assert (Hsend : SendMessage empty_db 5 "e5f6a7b8" "a1b2c3d4" "hello"
                  = Ok (hello, inbox)) by reflexivity.
  assert (Hev : evolves inbox inbox_read).
  { apply rtc_once. eapply (step_MarkMessageRead inbox 9 1). reflexivity. }
  split; [exact Hsend |]. split; [exact Hev |].
  destruct (messages_are_never_deleted _ _ _ _ _ _ _ _ Hsend Hev)
    as (m' & Hin & Hid & _ & _ & Hcontent & _).
  exists m'. split; [exact Hin |]. split; [exact Hid | exact Hcontent].
Defined.

Lemma truncate_fits_the_length_witness :
  3 <= 8 /\
  len (truncate "hello world" 8) = Z.min (len "hello world") 8.
Proof.
  assert (Hroom : 3 <= 8) by lia.
  split; [exact Hroom |].
  exact (proj1 (truncate_fits_the_length "hello world" 8 Hroom)).
Defined.

Lemma tool_call_changes_its_own_table_witness :
  snd (@callTool byte_engine numeric_clock me 0
         {| ToolCallParams.Name := "recall"; ToolCallParams.Arguments := ∅ |}
         one_note)
  = one_note.
Proof.
  destruct (@tool_call_changes_its_own_table byte_engine numeric_clock me 0
              {| ToolCallParams.Name := "recall";
                 ToolCallParams.Arguments := ∅ |} one_note)
    as (_ & _ & _ & _ & _ & _ & _ & Hsame).
  apply Hsame; discriminate.
Defined.

Lemma closed_store_fails_every_tool_witness :
  closed (Close one_note) = true /\
  IsError (fst (@callTool byte_engine numeric_clock me 0
                  {| ToolCallParams.Name := "remember";
                     ToolCallParams.Arguments :=
                       {[ "fact" := JString "too late" ]} |}
                  (Close one_note)))
  = true.
Proof.
  assert (Hclosed : closed (Close one_note) = true) by reflexivity.
  split; [exact Hclosed |].
  exact (proj1 (@closed_store_fails_every_tool byte_engine numeric_clock me 0
                  {| ToolCallParams.Name := "remember";
                     ToolCallParams.Arguments :=
                       {[ "fact" := JString "too late" ]} |}
                  (Close one_note) Hclosed)).
Defined.




Lemma every_request_gets_one_response_witness :
  let req := {| Request.JSONRPC := "2.0"; Request.ID := JString "r1";
                Request.Method := "ping"; Request.Params := EmptyString |} in
  Request.Method req <> "initialized" /\
  exists resp,
    fst (@handleRequest byte_engine numeric_clock method_codec me 0 [] req
           empty_db) = [resp] /\
    Response.ID resp = JString "r1".
Proof.
  intros req.
  assert (Hm : Request.Method req <> "initialized") by discriminate.
  split; [exact Hm |].
  destruct (@every_request_gets_one_response byte_engine numeric_clock
              method_codec me 0 [] req empty_db) as (_ & _ & _ & Hone).
  destruct (Hone Hm) as (resp & Hw & _ & Hid & _).
  exists resp. split; [exact Hw | exact Hid].
Defined.

Lemma cli_send_checks_recipient_only_witness :
  closed me_registered = false /\
  runSend 7 (Ok me_registered) ["ghost"; "are"; "you"; "there"]
  = Some (Some "instance 'ghost' not found", EmptyString, Ok me_registered).
Proof.
  assert (Hopen : closed me_registered = false) by reflexivity.
  split; [exact Hopen |].
  destruct (cli_send_checks_recipient_only 7 me_registered "ghost"
              ["are"; "you"; "there"] Hopen) as [Hmissing _].
  apply Hmissing. intros i Hi.
  change (instances me_registered)
    with [ {| Instance.ID := "a1b2c3d4"; Instance.PID := 4242;
              Instance.Directory := "/home/dev/app";
              Instance.StartedAt := 0; Instance.LastHeartbeat := 0 |} ] in Hi.
  apply list_elem_of_singleton in Hi. subst i. discriminate.
Defined.

Lemma cli_remember_stores_joined_words_witness :
  closed one_note = false /\
  Forall ascii_text ["cli"] /\
  exists f db',
    runRemember 4 (Ok one_note) (Ok "/p") ["cli"] ["prefer"; "small"; "diffs"]
    = (None, "Stored fact #" +:+ itoa (Fact.ID f) +:+ nl, Ok db') /\
    Fact.Content f = "prefer small diffs" /\
    GetFactByID db' (Fact.ID f) = Ok (Some f).
Proof.
  assert (Hopen : closed one_note = false) by reflexivity.
  assert (Hroom : Z.max (facts_seq one_note)
                    (max_rowid (map row_id (facts one_note))) < MaxInt64)
    by reflexivity.
  assert (Hascii : Forall ascii_text ["cli"]) by (repeat constructor).
  split; [exact Hopen |]. split; [exact Hascii |].
  destruct (cli_remember_stores_joined_words 4 one_note "/p" ["cli"]
              ["prefer"; "small"; "diffs"] Hopen Hroom Hascii)
    as [(f & db' & Hrun & Hf & _ & Hget) _].
  exists f, db'. split; [exact Hrun |]. split; [| exact Hget].
  rewrite Hf. reflexivity.
Defined.


